(** * ID-5100 back end (rigs/icom/id5100.c): mode codec, VFO selector, split

    A shallow embedding of the four entry points of the ID-5100 profile
    ([id5100_set_mode], [id5100_get_mode], [id5100_set_vfo],
    [id5100_set_split_vfo]).  The functions talk to the radio only through
    the CI-V helpers [icom_transaction] and [icom_set_func]; those live in
    icom.c / frame.c and are represented here by an abstract link whose
    replies are arbitrary.  Every call that reaches the link is recorded, so
    that statements about "which transactions were issued, in which order"
    are statements about a list. *)

From Stdlib Require Import ZArith List Bool Lia.
Import ListNotations.
Open Scope Z_scope.

(** ** C types used by the back end *)

Definition int := Z.
Definition vfo_t := Z.        (* unsigned int bit mask *)
Definition rmode_t := Z.      (* uint64_t bit mask *)
Definition pbwidth_t := Z.    (* signed long, Hz *)
Definition setting_t := Z.    (* uint64_t bit mask *)
Definition split_t := Z.      (* enum *)

(** ** Constants of the headers

    hamlib/rig.h and icom_defs.h are not part of the translated file; the
    values of their macros and enumerators are taken as parameters. *)

Class rig_h := {
  RIG_OK : int;
  RIG_EINVAL : int;
  RIG_VFO_A : vfo_t;
  RIG_VFO_B : vfo_t;
  RIG_VFO_MAIN : vfo_t;
  RIG_VFO_SUB : vfo_t;
  RIG_VFO_CURR : vfo_t;
  RIG_MODE_AM : rmode_t;
  RIG_MODE_AMN : rmode_t;
  RIG_MODE_FM : rmode_t;
  RIG_MODE_FMN : rmode_t;
  RIG_MODE_DSTAR : rmode_t;
  RIG_FUNC_DUAL_WATCH : setting_t
}.

Class icom_defs_h := {
  C_RD_MODE : int;
  C_SET_MODE : int;
  C_SET_VFO : int;
  S_MAIN : int;
  S_SUB : int
}.

(** Pairwise distinctness of a list of constants, as a computable test.  The
    case labels of a C [switch] are distinct by the language rules, and the
    VFO masks are distinct bits. *)
Fixpoint all_distinct (l : list Z) : bool :=
  match l with
  | [] => true
  | x :: tl => negb (existsb (Z.eqb x) tl) && all_distinct tl
  end.

(** ** The CI-V link

    One entry of the log per call that leaves the back end. *)
Inductive call :=
| Transaction (cmd subcmd : int) (payload : list Z)
| SetFunc (vfo : vfo_t) (func : setting_t) (status : int).

(** The engine behind [icom_transaction] and [icom_set_func]: a state [link]
    (serial port, radio) and, for each request, the next state together with
    the status code and, for a frame exchange, the bytes put in the caller's
    data buffer.  Both collaborators see the link only; the private data of
    the back end ([dual_watch], [x25cmdfails]) is not theirs to change. *)
Class civ_link := {
  link : Type;
  transact : link -> int -> int -> list Z -> link * (int * list Z);
  set_function : link -> vfo_t -> setting_t -> int -> link * int
}.

Definition is_toggle (c : call) : bool :=
  match c with SetFunc _ _ _ => true | Transaction _ _ _ => false end.

(** A link that replays prepared replies, first come first served; when a
    queue is empty the reply is status 0 with no data. *)
Record script := {
  func_replies : list int;
  frame_replies : list (int * list Z)
}.

Definition script_transact (s : script) (cmd subcmd : int) (payload : list Z)
  : script * (int * list Z) :=
  match frame_replies s with
  | [] => (s, (0, []))
  | x :: tl => ({| func_replies := func_replies s; frame_replies := tl |}, x)
  end.

Definition script_set_function (s : script) (vfo : vfo_t) (func : setting_t)
  (status : int) : script * int :=
  match func_replies s with
  | [] => (s, 0)
  | x :: tl => ({| func_replies := tl; frame_replies := frame_replies s |}, x)
  end.

Definition scripted : civ_link := {|
  link := script;
  transact := script_transact;
  set_function := script_set_function
|}.

(** The header values of Hamlib 4.x, one admissible choice of the
    parameters. *)
Definition hamlib4 : rig_h := {|
  RIG_OK := 0;
  RIG_EINVAL := 1;
  RIG_VFO_A := 1;
  RIG_VFO_B := 2;
  RIG_VFO_MAIN := 2 ^ 26;
  RIG_VFO_SUB := 2 ^ 25;
  RIG_VFO_CURR := 2 ^ 29;
  RIG_MODE_AM := 1;
  RIG_MODE_AMN := 2 ^ 29;
  RIG_MODE_FM := 2 ^ 5;
  RIG_MODE_FMN := 2 ^ 21;
  RIG_MODE_DSTAR := 2 ^ 24;
  RIG_FUNC_DUAL_WATCH := 2 ^ 37
|}.

Definition icom4 : icom_defs_h := {|
  C_RD_MODE := 0x04;
  C_SET_MODE := 0x06;
  C_SET_VFO := 0x07;
  S_MAIN := 0xd0;
  S_SUB := 0xd1
|}.

(** Other values used as concrete inputs: the memory VFO, the CW mode, the
    time-out status. *)
Definition RIG_VFO_MEM : vfo_t := 2 ^ 28.
Definition RIG_MODE_CW : rmode_t := 2.
Definition RIG_ETIMEOUT : int := 5.

Section Backend.

Context {H_rig : rig_h} {H_icom : icom_defs_h} {L : civ_link}.

(** ** The rig handle *)

(** The two fields of [struct icom_priv_data] the back end touches. *)
Record icom_priv_data := {
  dual_watch : int;
  x25cmdfails : int
}.

Record rig_state := {
  current_vfo : vfo_t;
  priv : icom_priv_data
}.

(** [rigport] is the link behind the handle, [issued] the log of calls made
    through it, oldest first. *)
Record RIG := {
  state : rig_state;
  rigport : link;
  issued : list call
}.

(** ** Statements

    A C statement sequence either runs to its end or executes [return]; the
    handle is threaded through. *)
Inductive outcome (R A : Type) :=
| Next (a : A)
| Returned (rc : R).

Arguments Next {R A} a.
Arguments Returned {R A} rc.

Definition stmt (R A : Type) := RIG -> outcome R A * RIG.

Definition pure {R A} (a : A) : stmt R A := fun rig => (Next a, rig).

Definition bind {R A B} (c : stmt R A) (k : A -> stmt R B) : stmt R B :=
  fun rig =>
    match c rig with
    | (Next a, rig') => k a rig'
    | (Returned rc, rig') => (Returned rc, rig')
    end.

Definition Return {R A} (rc : R) : stmt R A := fun rig => (Returned rc, rig).

(** [if (c) { body }] without [else]. *)
Definition when {R} (c : bool) (body : stmt R unit) : stmt R unit :=
  if c then body else pure tt.

(** A function body always ends in [return]. *)
Definition fn {R} (body : stmt R Empty_set) (rig : RIG) : R * RIG :=
  match body rig with
  | (Returned rc, rig') => (rc, rig')
  | (Next e, _) => match e with end
  end.

(** Calling a function from a statement. *)
Definition call_fn {R A} (f : RIG -> A * RIG) : stmt R A :=
  fun rig => let '(a, rig') := f rig in (Next a, rig').

Notation "x <- c ;; k" := (bind c (fun x => k))
  (at level 61, c at next level, right associativity).
Notation "' p <- c ;; k" := (bind c (fun x => match x with p => k end))
  (at level 61, p pattern, c at next level, right associativity).
Notation "c ;;; k" := (bind c (fun _ : unit => k))
  (at level 61, right associativity).

(** ** Access to the handle *)

Definition load_current_vfo {R} : stmt R vfo_t :=
  fun rig => (Next (current_vfo (state rig)), rig).

Definition load_dual_watch {R} : stmt R int :=
  fun rig => (Next (dual_watch (priv (state rig))), rig).

Definition with_priv (rig : RIG) (p : icom_priv_data) : RIG :=
  {| state := {| current_vfo := current_vfo (state rig); priv := p |};
     rigport := rigport rig;
     issued := issued rig |}.

Definition set_dual_watch (v : int) (rig : RIG) : RIG :=
  with_priv rig {| dual_watch := v;
                   x25cmdfails := x25cmdfails (priv (state rig)) |}.

Definition set_x25cmdfails (v : int) (rig : RIG) : RIG :=
  with_priv rig {| dual_watch := dual_watch (priv (state rig));
                   x25cmdfails := v |}.

(** [priv->dual_watch = v;] *)
Definition store_dual_watch {R} (v : int) : stmt R unit :=
  fun rig => (Next tt, set_dual_watch v rig).

(** [priv->x25cmdfails = v;] *)
Definition store_x25cmdfails {R} (v : int) : stmt R unit :=
  fun rig => (Next tt, set_x25cmdfails v rig).

(** ** The two CI-V helpers *)

(** Modelled from the spec: [icom_transaction] is defined in frame.c, outside
    the translated file.  Section 6 gives its contract,
    [transact(commandCode, subCommandCode, payloadBytes)] yielding response
    bytes or an error.  The call is logged and answered by the link. *)
Definition icom_transaction {R} (cmd subcmd : int) (payload : list Z)
  : stmt R (int * list Z) :=
  fun rig =>
    let '(p, reply) := transact (rigport rig) cmd subcmd payload in
    (Next reply,
     {| state := state rig;
        rigport := p;
        issued := issued rig ++ [Transaction cmd subcmd payload] |}).

(** Modelled from the spec: [icom_set_func] is defined in icom.c, outside the
    translated file.  Section 6 gives its contract,
    [setFunction(vfo, functionId, boolValue)] yielding a result.  The call is
    logged and answered by the link. *)
Definition icom_set_func {R} (vfo : vfo_t) (func : setting_t) (status : int)
  : stmt R int :=
  fun rig =>
    let '(p, retval) := set_function (rigport rig) vfo func status in
    (Next retval,
     {| state := state rig;
        rigport := p;
        issued := issued rig ++ [SetFunc vfo func status] |}).

(** [buf[i]] for a data buffer filled by [icom_transaction].  A reply shorter
    than the index leaves the C array element indeterminate; 0 stands for it
    here, and no statement below relies on that choice. *)
Definition byte_at (buf : list Z) (i : nat) : Z := nth i buf 0.

(** In a [RIG -> R * RIG] function, debug output ([rig_debug], [ENTERFUNC])
    is left out and [RETURNFUNC2(rc)] is [return rc]. *)
Definition RETURNFUNC2 {A} (rc : int) : stmt int A := Return rc.

(** ** id5100_set_mode *)

(** The [switch (mode)] of [id5100_set_mode]: [Some (icmode, modebuf)] when
    a [case] breaks out of it, [None] for [default]. *)
Definition set_mode_switch (mode : rmode_t) : option (int * Z) :=
  if mode =? RIG_MODE_AM then Some (2, 1)
  else if mode =? RIG_MODE_AMN then Some (2, 2)
  else if mode =? RIG_MODE_FM then Some (5, 1)
  else if mode =? RIG_MODE_FMN then Some (5, 2)
  else if mode =? RIG_MODE_DSTAR then Some (0x17, 1)
  else None.

Definition id5100_set_mode (vfo : vfo_t) (mode : rmode_t) (width : pbwidth_t)
  : RIG -> int * RIG :=
  fn (
    match set_mode_switch mode with
    | None => Return (- RIG_EINVAL)
    | Some (icmode, modebuf) =>
        '(retval, ackbuf) <- icom_transaction C_SET_MODE icmode [modebuf] ;;
        Return retval
    end).

(** ** id5100_get_mode *)

(** The [switch (modebuf[1])] of [id5100_get_mode] acting on the cells
    [*mode] and [*width]; there is no [default], so the cells keep their
    contents when no [case] matches. *)
Definition get_mode_switch (modebuf : list Z) (mode : rmode_t)
  (width : pbwidth_t) : rmode_t * pbwidth_t :=
  if byte_at modebuf 1 =? 2 then
    (if byte_at modebuf 2 =? 1 then RIG_MODE_AM else RIG_MODE_AMN,
     if byte_at modebuf 2 =? 1 then 12000 else 6000)
  else if byte_at modebuf 1 =? 5 then
    (if byte_at modebuf 2 =? 1 then RIG_MODE_FM else RIG_MODE_FMN,
     if byte_at modebuf 2 =? 1 then 10000 else 5000)
  else if byte_at modebuf 1 =? 0x17 then
    (RIG_MODE_DSTAR, 6000)
  else
    (mode, width).

(** The arguments [mode] and [width] are the contents of the caller's cells
    before the call; the result carries the status and the contents after
    it. *)
Definition id5100_get_mode (vfo : vfo_t) (mode : rmode_t) (width : pbwidth_t)
  : RIG -> (int * (rmode_t * pbwidth_t)) * RIG :=
  fn (
    '(retval, modebuf) <- icom_transaction C_RD_MODE (-1) [] ;;
    when (negb (retval =? RIG_OK)) (Return (retval, (mode, width))) ;;;
    Return (RIG_OK, get_mode_switch modebuf mode width)).

(** ** id5100_set_vfo *)

Definition id5100_set_vfo (vfo : vfo_t) : RIG -> int * RIG :=
  fn (
    vfo <- (if vfo =? RIG_VFO_CURR then load_current_vfo else pure vfo) ;;
    (if (vfo =? RIG_VFO_A) || (vfo =? RIG_VFO_B) then
       store_x25cmdfails 1 ;;;
       dw <- load_dual_watch ;;
       when (negb (dw =? 0)) (
         retval <- icom_set_func RIG_VFO_CURR RIG_FUNC_DUAL_WATCH 0 ;;
         when (negb (RIG_OK =? retval)) (RETURNFUNC2 retval) ;;;
         store_dual_watch 0)
     else if (vfo =? RIG_VFO_MAIN) || (vfo =? RIG_VFO_SUB) then
       store_x25cmdfails 1 ;;;
       dw <- load_dual_watch ;;
       when (dw =? 0) (
         retval <- icom_set_func RIG_VFO_CURR RIG_FUNC_DUAL_WATCH 1 ;;
         when (negb (RIG_OK =? retval)) (RETURNFUNC2 retval) ;;;
         store_dual_watch 1)
     else pure tt) ;;;
    let myvfo :=
      if (vfo =? RIG_VFO_B) || (vfo =? RIG_VFO_SUB) then S_SUB else S_MAIN in
    '(retval, ackbuf) <- icom_transaction C_SET_VFO myvfo [] ;;
    when (negb (RIG_OK =? retval)) (RETURNFUNC2 retval) ;;;
    Return retval).

(** ** id5100_set_split_vfo

    [rig_set_vfo] is the front-end entry of rig.c, outside the translated
    file; it is a parameter of the definition. *)
Definition id5100_set_split_vfo (rig_set_vfo : vfo_t -> RIG -> int * RIG)
  (vfo : vfo_t) (split : split_t) (tx_vfo : vfo_t) : RIG -> int * RIG :=
  fn (
    retval <-
      (if (tx_vfo =? RIG_VFO_A) || (tx_vfo =? RIG_VFO_MAIN) then
         call_fn (rig_set_vfo RIG_VFO_SUB)
       else
         pure (- RIG_EINVAL)) ;;
    Return retval).

(** ** Sequences of operations *)

Inductive op :=
| SetMode (vfo : vfo_t) (mode : rmode_t) (width : pbwidth_t)
| GetMode (vfo : vfo_t) (mode : rmode_t) (width : pbwidth_t)
| SetVfo (vfo : vfo_t)
| SetSplitVfo (vfo : vfo_t) (split : split_t) (tx_vfo : vfo_t).

Definition exec (rig_set_vfo : vfo_t -> RIG -> int * RIG) (o : op)
  (rig : RIG) : RIG :=
  match o with
  | SetMode vfo mode width => snd (id5100_set_mode vfo mode width rig)
  | GetMode vfo mode width => snd (id5100_get_mode vfo mode width rig)
  | SetVfo vfo => snd (id5100_set_vfo vfo rig)
  | SetSplitVfo vfo split tx_vfo =>
      snd (id5100_set_split_vfo rig_set_vfo vfo split tx_vfo rig)
  end.

Definition exec_all (rig_set_vfo : vfo_t -> RIG -> int * RIG)
  (ops : list op) (rig : RIG) : RIG :=
  fold_left (fun r o => exec rig_set_vfo o r) ops rig.

(** The VFO a request stands for once [RIG_VFO_CURR] is resolved. *)
Definition resolved (vfo : vfo_t) (rig : RIG) : vfo_t :=
  if vfo =? RIG_VFO_CURR then current_vfo (state rig) else vfo.

(** The final statement pair of [id5100_set_vfo] seen from a handle: the
    select frame with selector [myvfo] and no payload, whose status is the
    function's result. *)
Definition select_frame (myvfo : int) (rig : RIG) : int * RIG :=
  let '(p, (retval, ackbuf)) := transact (rigport rig) C_SET_VFO myvfo [] in
  (retval,
   {| state := state rig;
      rigport := p;
      issued := issued rig ++ [Transaction C_SET_VFO myvfo []] |}).

(** The dual-watch request of [id5100_set_vfo] seen from a handle. *)
Definition toggle (status : int) (rig : RIG) : int * RIG :=
  let '(p, retval) :=
    set_function (rigport rig) RIG_VFO_CURR RIG_FUNC_DUAL_WATCH status in
  (retval,
   {| state := state rig;
      rigport := p;
      issued := issued rig ++ [SetFunc RIG_VFO_CURR RIG_FUNC_DUAL_WATCH status] |}).

(** A request needs no dual-watch change, or the change is acknowledged. *)
Definition toggle_accepted (vfo : vfo_t) (rig : RIG) : Prop :=
  let v := resolved vfo rig in
  let dw := dual_watch (priv (state rig)) in
  ((v = RIG_VFO_A \/ v = RIG_VFO_B) -> dw <> 0 ->
     fst (toggle 0 rig) = RIG_OK) /\
  ((v = RIG_VFO_MAIN \/ v = RIG_VFO_SUB) -> dw = 0 ->
     fst (toggle 1 rig) = RIG_OK).

(** The last call of [id5100_set_vfo vfo rig] is the select frame with
    selector [myvfo] and no payload, its status is the result, and nothing
    but dual-watch requests went out before it. *)
Definition ends_in_select (vfo : vfo_t) (rig : RIG) (myvfo : int) : Prop :=
  exists mid toggles,
    id5100_set_vfo vfo rig = select_frame myvfo mid /\
    issued mid = issued rig ++ toggles /\
    forallb is_toggle toggles = true.

(** [id5100_get_mode] reports a failure to its caller. *)
Definition get_mode_rejects (vfo : vfo_t) (mode : rmode_t) (width : pbwidth_t)
  (rig : RIG) : Prop :=
  fst (fst (id5100_get_mode vfo mode width rig)) <> RIG_OK.

(** The selector computed at the end of [id5100_set_vfo]:
    [myvfo = S_MAIN; if (vfo == RIG_VFO_B || vfo == RIG_VFO_SUB) myvfo = S_SUB]. *)
Definition selector (vfo : vfo_t) : int :=
  if (vfo =? RIG_VFO_B) || (vfo =? RIG_VFO_SUB) then S_SUB else S_MAIN.

(** ** Masks of the capability table *)

(** [#define ID5100_MODES (AM|AMN|FM|FMN|DSTAR)] *)
Definition ID5100_MODES : rmode_t :=
  Z.lor (Z.lor (Z.lor (Z.lor RIG_MODE_AM RIG_MODE_AMN) RIG_MODE_FM)
           RIG_MODE_FMN) RIG_MODE_DSTAR.

(** [#define ID5100_ALL_RX_MODES (RIG_MODE_AM|ID5100_MODES)] *)
Definition ID5100_ALL_RX_MODES : rmode_t := Z.lor RIG_MODE_AM ID5100_MODES.

(** [#define ID5100_VFO_ALL (A|B|MAIN|SUB)] *)
Definition ID5100_VFO_ALL : vfo_t :=
  Z.lor (Z.lor (Z.lor RIG_VFO_A RIG_VFO_B) RIG_VFO_MAIN) RIG_VFO_SUB.

End Backend.

(** A mask with exactly one bit set. *)
Definition single_flag (z : Z) : bool := z =? 2 ^ Z.log2 z.

(** ** Concrete handles

    A handle on the replaying link: active VFO, the two private fields, the
    prepared replies, and an empty log. *)
Definition bench (cur : vfo_t) (dw x25 : int) (funcs : list int)
  (frames : list (int * list Z)) : @RIG scripted :=
  @Build_RIG scripted
    {| current_vfo := cur;
       priv := {| dual_watch := dw; x25cmdfails := x25 |} |}
    {| func_replies := funcs; frame_replies := frames |}
    [].

(** Dual watch on, every request acknowledged. *)
Definition rig_dual : @RIG scripted := bench 1 1 0 [] [].

(** Dual watch on, the next dual-watch request times out. *)
Definition rig_dual_timeout : @RIG scripted :=
  bench 1 1 0 [- RIG_ETIMEOUT] [].

(** The radio reports mode code 5, sub-code 2. *)
Definition rig_reports_5_2 : @RIG scripted := bench 1 0 0 [] [(0, [4; 5; 2])].

(** The radio reports mode code 2, sub-code 3. *)
Definition rig_reports_2_3 : @RIG scripted := bench 1 0 0 [] [(0, [4; 2; 3])].

(** [x25cmdfails] already set. *)
Definition rig_flagged : @RIG scripted := bench 1 0 1 [] [].

(** Dual watch on, the next frame exchange times out. *)
Definition rig_frame_timeout : @RIG scripted :=
  bench 1 1 0 [] [(- RIG_ETIMEOUT, [])].

(** ** Proofs *)

Section BackendProofs.

Context {H_rig : rig_h} {H_icom : icom_defs_h} {L : civ_link}.


Lemma all_distinct_cons (x : Z) (l : list Z) :
  all_distinct (x :: l) = true ->
  (forall y, In y l -> (x =? y) = false) /\ all_distinct l = true.
Proof.
  cbn [all_distinct]. rewrite andb_true_iff, negb_true_iff.
  intros [Hx Hl]. split; [|exact Hl].
  intros y Hy. destruct (x =? y) eqn:E; [|reflexivity].
  rewrite <- Hx. symmetry. apply existsb_exists. exists y. split; assumption.
Qed.

Lemma eqb_sym_false (x y : Z) : (x =? y) = false -> (y =? x) = false.
Proof. rewrite Z.eqb_sym. exact (fun e => e). Qed.

(** [RIG_VFO_CURR] stands for the active VFO, any other request for
    itself. *)
Lemma resolved_direct (vfo : vfo_t) (rig : RIG) :
  vfo <> RIG_VFO_CURR -> resolved vfo rig = vfo.
Proof.
  intros N. unfold resolved. apply Z.eqb_neq in N. rewrite N. reflexivity.
Qed.

Lemma resolved_curr (rig : RIG) :
  resolved RIG_VFO_CURR rig = current_vfo (state rig).
Proof. unfold resolved. rewrite Z.eqb_refl. reflexivity. Qed.

(** What [id5100_set_vfo] computes, branch by branch. *)
Lemma id5100_set_vfo_eq (vfo : vfo_t) (rig : RIG) :
  id5100_set_vfo vfo rig =
  let v := resolved vfo rig in
  let myvfo :=
    if (v =? RIG_VFO_B) || (v =? RIG_VFO_SUB) then S_SUB else S_MAIN in
  if (v =? RIG_VFO_A) || (v =? RIG_VFO_B) then
    if dual_watch (priv (state rig)) =? 0 then
      select_frame myvfo (set_x25cmdfails 1 rig)
    else
      let '(retval, rig2) := toggle 0 (set_x25cmdfails 1 rig) in
      if RIG_OK =? retval then select_frame myvfo (set_dual_watch 0 rig2)
      else (retval, rig2)
  else if (v =? RIG_VFO_MAIN) || (v =? RIG_VFO_SUB) then
    if dual_watch (priv (state rig)) =? 0 then
      let '(retval, rig2) := toggle 1 (set_x25cmdfails 1 rig) in
      if RIG_OK =? retval then select_frame myvfo (set_dual_watch 1 rig2)
      else (retval, rig2)
    else
      select_frame myvfo (set_x25cmdfails 1 rig)
  else
    select_frame myvfo rig.
Proof.
  unfold id5100_set_vfo, resolved, fn, bind, when, RETURNFUNC2, Return, pure,
    load_current_vfo, load_dual_watch, store_x25cmdfails, store_dual_watch,
    icom_set_func, icom_transaction, select_frame, toggle.
  unfold set_x25cmdfails, set_dual_watch, with_priv.
  cbv zeta.
  destruct (vfo =? RIG_VFO_CURR); cbv beta iota.
  all: match goal with
       | |- context [if (?v =? RIG_VFO_A) || (?v =? RIG_VFO_B) then _ else _] =>
           destruct ((v =? RIG_VFO_A) || (v =? RIG_VFO_B));
           [| destruct ((v =? RIG_VFO_MAIN) || (v =? RIG_VFO_SUB))]
       end.
  all: simpl.
  all: destruct (dual_watch (priv (state rig)) =? 0); simpl.
  all: repeat match goal with
       | |- context [set_function ?a ?b ?c ?d] =>
           destruct (set_function a b c d) as [? ?]; simpl
       | |- context [RIG_OK =? ?r] =>
           destruct (RIG_OK =? r); simpl
       | |- context [transact ?a ?b ?c ?d] =>
           destruct (transact a b c d) as [? [? ?]]; simpl
       end.
  all: reflexivity.
Qed.

Lemma select_frame_issued (myvfo : int) (rig : RIG) :
  issued (snd (select_frame myvfo rig)) =
  issued rig ++ [Transaction C_SET_VFO myvfo []].
Proof.
  unfold select_frame.
  destruct (transact (rigport rig) C_SET_VFO myvfo []) as [p [retval ack]].
  reflexivity.
Qed.

Lemma select_frame_state (myvfo : int) (rig : RIG) :
  state (snd (select_frame myvfo rig)) = state rig.
Proof.
  unfold select_frame.
  destruct (transact (rigport rig) C_SET_VFO myvfo []) as [p [retval ack]].
  reflexivity.
Qed.

Lemma toggle_issued (status : int) (rig : RIG) :
  issued (snd (toggle status rig)) =
  issued rig ++ [SetFunc RIG_VFO_CURR RIG_FUNC_DUAL_WATCH status].
Proof.
  unfold toggle.
  destruct (set_function (rigport rig) RIG_VFO_CURR RIG_FUNC_DUAL_WATCH status).
  reflexivity.
Qed.

Lemma toggle_state (status : int) (rig : RIG) :
  state (snd (toggle status rig)) = state rig.
Proof.
  unfold toggle.
  destruct (set_function (rigport rig) RIG_VFO_CURR RIG_FUNC_DUAL_WATCH status).
  reflexivity.
Qed.

(** The link's answer to a dual-watch request does not depend on the private
    data of the handle. *)
Lemma toggle_fst_flag (status v : int) (rig : RIG) :
  fst (toggle status (set_x25cmdfails v rig)) = fst (toggle status rig).
Proof.
  unfold toggle, set_x25cmdfails, with_priv. simpl.
  destruct (set_function (rigport rig) RIG_VFO_CURR RIG_FUNC_DUAL_WATCH status).
  reflexivity.
Qed.

Ltac distinct H :=
  cbn [all_distinct existsb] in H;
  rewrite ?andb_true_iff, ?negb_true_iff, ?orb_false_iff in H;
  decompose [and] H; clear H.

(** The VFO group tests of [id5100_set_vfo] on each of the four VFOs. *)
Lemma group_tests (v : vfo_t) :
  all_distinct [RIG_VFO_A; RIG_VFO_B; RIG_VFO_MAIN; RIG_VFO_SUB] = true ->
  (v = RIG_VFO_A ->
     (v =? RIG_VFO_A) || (v =? RIG_VFO_B) = true /\
     (v =? RIG_VFO_B) || (v =? RIG_VFO_SUB) = false) /\
  (v = RIG_VFO_B ->
     (v =? RIG_VFO_A) || (v =? RIG_VFO_B) = true /\
     (v =? RIG_VFO_B) || (v =? RIG_VFO_SUB) = true) /\
  (v = RIG_VFO_MAIN ->
     (v =? RIG_VFO_A) || (v =? RIG_VFO_B) = false /\
     (v =? RIG_VFO_MAIN) || (v =? RIG_VFO_SUB) = true /\
     (v =? RIG_VFO_B) || (v =? RIG_VFO_SUB) = false) /\
  (v = RIG_VFO_SUB ->
     (v =? RIG_VFO_A) || (v =? RIG_VFO_B) = false /\
     (v =? RIG_VFO_MAIN) || (v =? RIG_VFO_SUB) = true /\
     (v =? RIG_VFO_B) || (v =? RIG_VFO_SUB) = true).
Proof.
  intros D. distinct D.
  split; [|split; [|split]]; intros ->.
  all: rewrite ?Z.eqb_refl, ?orb_true_r.
  all: repeat match goal with
       | E : (?a =? ?b) = false |- _ =>
           rewrite ?E, ?(eqb_sym_false _ _ E); clear E
       end.
  all: repeat split; reflexivity.
Qed.

(** The log after a dual-watch request made on a freshly flagged handle. *)
Lemma toggle_flagged_issued (status : int) (rig : RIG) (rc : int) (rig2 : RIG) :
  toggle status (set_x25cmdfails 1 rig) = (rc, rig2) ->
  issued rig2 =
  issued rig ++ [SetFunc RIG_VFO_CURR RIG_FUNC_DUAL_WATCH status] /\
  dual_watch (priv (state rig2)) = dual_watch (priv (state rig)) /\
  rc = fst (toggle status rig).
Proof.
  intros T.
  pose proof (toggle_issued status (set_x25cmdfails 1 rig)) as TI.
  pose proof (toggle_state status (set_x25cmdfails 1 rig)) as TS.
  pose proof (toggle_fst_flag status 1 rig) as TF.
  rewrite T in TI, TS, TF. simpl in TI, TS, TF.
  rewrite TS. simpl. auto.
Qed.

Ltac pick_branch HA HB HM HS E :=
  first [ apply HA in E | apply HB in E | apply HM in E | apply HS in E ];
  decompose [and] E; clear E;
  repeat match goal with
         | X : (_ || _) = _ |- _ => rewrite X; clear X
         end.

(** C1. Dual-watch requests made by the VFO selector.  Whatever the stored
    dual-watch value: a request for VFO A or B with dual watch on (flag
    non-zero) sends exactly one switch-off request, first, followed by at
    most the select frame; a request for Main or Sub with dual watch off
    sends exactly one switch-on request, first; a request inside the group
    that matches the flag sends the select frame alone, no dual-watch
    request. *)
Theorem set_vfo_dual_watch_requests (vfo : vfo_t) (rig : RIG) :
  all_distinct [RIG_VFO_A; RIG_VFO_B; RIG_VFO_MAIN; RIG_VFO_SUB] = true ->
  ((resolved vfo rig = RIG_VFO_A \/ resolved vfo rig = RIG_VFO_B) ->
   dual_watch (priv (state rig)) <> 0 ->
   issued (snd (id5100_set_vfo vfo rig)) =
     issued rig ++ [SetFunc RIG_VFO_CURR RIG_FUNC_DUAL_WATCH 0] \/
   exists myvfo,
     issued (snd (id5100_set_vfo vfo rig)) =
     issued rig ++ [SetFunc RIG_VFO_CURR RIG_FUNC_DUAL_WATCH 0;
                    Transaction C_SET_VFO myvfo []]) /\
  ((resolved vfo rig = RIG_VFO_MAIN \/ resolved vfo rig = RIG_VFO_SUB) ->
   dual_watch (priv (state rig)) = 0 ->
   issued (snd (id5100_set_vfo vfo rig)) =
     issued rig ++ [SetFunc RIG_VFO_CURR RIG_FUNC_DUAL_WATCH 1] \/
   exists myvfo,
     issued (snd (id5100_set_vfo vfo rig)) =
     issued rig ++ [SetFunc RIG_VFO_CURR RIG_FUNC_DUAL_WATCH 1;
                    Transaction C_SET_VFO myvfo []]) /\
  ((resolved vfo rig = RIG_VFO_A \/ resolved vfo rig = RIG_VFO_B) ->
   dual_watch (priv (state rig)) = 0 ->
   exists myvfo,
     issued (snd (id5100_set_vfo vfo rig)) =
     issued rig ++ [Transaction C_SET_VFO myvfo []]) /\
  ((resolved vfo rig = RIG_VFO_MAIN \/ resolved vfo rig = RIG_VFO_SUB) ->
   dual_watch (priv (state rig)) <> 0 ->
   exists myvfo,
     issued (snd (id5100_set_vfo vfo rig)) =
     issued rig ++ [Transaction C_SET_VFO myvfo []]).
Proof.
  intros D.
  destruct (group_tests (resolved vfo rig) D) as (HA & HB & HM & HS).
  rewrite id5100_set_vfo_eq. cbv zeta.
  split; [|split; [|split]]; intros [E|E] Hdw; pick_branch HA HB HM HS E.
  all: destruct (Z.eqb_spec (dual_watch (priv (state rig))) 0) as [Z0|Z0];
    try contradiction.
  all: try (eexists; rewrite select_frame_issued; reflexivity).
  all: destruct (toggle _ (set_x25cmdfails 1 rig)) as [rc rig2] eqn:T.
  all: apply toggle_flagged_issued in T; destruct T as (TI & _ & _).
  all: destruct (RIG_OK =? rc); [right | left; exact TI].
  all: eexists; rewrite select_frame_issued; simpl; rewrite TI.
  all: rewrite <- app_assoc; reflexivity.
Qed.

(** C2. A failed dual-watch request aborts the selection.  For a request
    for A, B, Main or Sub that needs the dual-watch state changed, if the
    link answers the request with a status other than [RIG_OK], then
    [id5100_set_vfo] returns that status, the log gains the dual-watch
    request and nothing else (no select frame), and the stored dual-watch
    value is the one from before the call. *)
Theorem set_vfo_toggle_failure (vfo : vfo_t) (rig : RIG) (status : int)
  (p : link) (rc : int) :
  all_distinct [RIG_VFO_A; RIG_VFO_B; RIG_VFO_MAIN; RIG_VFO_SUB] = true ->
  ((resolved vfo rig = RIG_VFO_A \/ resolved vfo rig = RIG_VFO_B) /\
   dual_watch (priv (state rig)) <> 0 /\ status = 0) \/
  ((resolved vfo rig = RIG_VFO_MAIN \/ resolved vfo rig = RIG_VFO_SUB) /\
   dual_watch (priv (state rig)) = 0 /\ status = 1) ->
  set_function (rigport rig) RIG_VFO_CURR RIG_FUNC_DUAL_WATCH status = (p, rc) ->
  rc <> RIG_OK ->
  fst (id5100_set_vfo vfo rig) = rc /\
  issued (snd (id5100_set_vfo vfo rig)) =
    issued rig ++ [SetFunc RIG_VFO_CURR RIG_FUNC_DUAL_WATCH status] /\
  dual_watch (priv (state (snd (id5100_set_vfo vfo rig)))) =
    dual_watch (priv (state rig)).
Proof.
  intros D Hcase Hlink Hrc.
  destruct (group_tests (resolved vfo rig) D) as (HA & HB & HM & HS).
  assert (Hfst : fst (toggle status rig) = rc).
  { unfold toggle. rewrite Hlink. reflexivity. }
  rewrite id5100_set_vfo_eq. cbv zeta.
  destruct Hcase as [([E|E] & Hdw & ->) | ([E|E] & Hdw & ->)];
    pick_branch HA HB HM HS E.
  all: destruct (Z.eqb_spec (dual_watch (priv (state rig))) 0) as [Z0|Z0];
    try contradiction.
  all: destruct (toggle _ (set_x25cmdfails 1 rig)) as [rc' rig2] eqn:T.
  all: apply toggle_flagged_issued in T; destruct T as (TI & TD & TR).
  all: rewrite Hfst in TR; subst rc'.
  all: destruct (Z.eqb_spec RIG_OK rc) as [Ok|_]; [congruence|].
  all: simpl; auto.
Qed.

(** C7, as the code has it.  For a request that resolves to A, B, Main or
    Sub and whose dual-watch request, when one is needed, is acknowledged
    with [RIG_OK]: the last call is the select frame [C_SET_VFO] with
    selector [S_MAIN] for A and Main, [S_SUB] for B and Sub, with an empty
    payload; the function's result is the status of that frame; before it
    only dual-watch requests went out. *)
Theorem set_vfo_select_frame (vfo : vfo_t) (rig : RIG) :
  all_distinct [RIG_VFO_A; RIG_VFO_B; RIG_VFO_MAIN; RIG_VFO_SUB] = true ->
  toggle_accepted vfo rig ->
  ((resolved vfo rig = RIG_VFO_A \/ resolved vfo rig = RIG_VFO_MAIN) ->
   ends_in_select vfo rig S_MAIN) /\
  ((resolved vfo rig = RIG_VFO_B \/ resolved vfo rig = RIG_VFO_SUB) ->
   ends_in_select vfo rig S_SUB).
Proof.
  intros D [Hoff Hon].
  destruct (group_tests (resolved vfo rig) D) as (HA & HB & HM & HS).
  unfold ends_in_select. rewrite id5100_set_vfo_eq. cbv zeta.
  split; intros [E|E].
  all: pose proof E as E'; pick_branch HA HB HM HS E.
  all: destruct (Z.eqb_spec (dual_watch (priv (state rig))) 0) as [Z0|Z0].
  all: try (exists (set_x25cmdfails 1 rig), [];
            rewrite app_nil_r; repeat split; reflexivity).
  all: destruct (toggle _ (set_x25cmdfails 1 rig)) as [rc rig2] eqn:T.
  all: apply toggle_flagged_issued in T; destruct T as (TI & _ & TR).
  all: first [ rewrite (Hoff (or_introl E') Z0) in TR
             | rewrite (Hoff (or_intror E') Z0) in TR
             | rewrite (Hon (or_introl E') Z0) in TR
             | rewrite (Hon (or_intror E') Z0) in TR ].
  all: subst rc; rewrite Z.eqb_refl.
  all: eexists; eexists; split; [reflexivity|].
  all: simpl; rewrite TI; split; reflexivity.
Qed.

(** C9. A request that resolves to none of A, B, Main, Sub (a memory VFO,
    say) is not rejected: the only call is the select frame [C_SET_VFO] with
    selector [S_MAIN] and empty payload, no dual-watch request is made, the
    result is the status of that frame, and both [dual_watch] and
    [x25cmdfails] keep their values. *)
Theorem set_vfo_outside_groups (vfo : vfo_t) (rig : RIG) :
  resolved vfo rig <> RIG_VFO_A ->
  resolved vfo rig <> RIG_VFO_B ->
  resolved vfo rig <> RIG_VFO_MAIN ->
  resolved vfo rig <> RIG_VFO_SUB ->
  id5100_set_vfo vfo rig = select_frame S_MAIN rig /\
  fst (id5100_set_vfo vfo rig) =
    fst (snd (transact (rigport rig) C_SET_VFO S_MAIN [])) /\
  issued (snd (id5100_set_vfo vfo rig)) =
    issued rig ++ [Transaction C_SET_VFO S_MAIN []] /\
  dual_watch (priv (state (snd (id5100_set_vfo vfo rig)))) =
    dual_watch (priv (state rig)) /\
  x25cmdfails (priv (state (snd (id5100_set_vfo vfo rig)))) =
    x25cmdfails (priv (state rig)).
Proof.
  intros NA NB NM NS.
  apply Z.eqb_neq in NA, NB, NM, NS.
  rewrite id5100_set_vfo_eq. cbv zeta.
  rewrite NA, NB, NM, NS. cbn [orb].
  rewrite select_frame_issued, select_frame_state.
  repeat split.
  unfold select_frame.
  destruct (transact (rigport rig) C_SET_VFO S_MAIN []) as [q [retval ack]].
  reflexivity.
Qed.

(** What [id5100_set_mode] computes. *)
Lemma id5100_set_mode_eq (vfo : vfo_t) (mode : rmode_t) (width : pbwidth_t)
  (rig : RIG) :
  id5100_set_mode vfo mode width rig =
  match set_mode_switch mode with
  | None => (- RIG_EINVAL, rig)
  | Some (icmode, modebuf) =>
      (fst (snd (transact (rigport rig) C_SET_MODE icmode [modebuf])),
       {| state := state rig;
          rigport := fst (transact (rigport rig) C_SET_MODE icmode [modebuf]);
          issued := issued rig ++ [Transaction C_SET_MODE icmode [modebuf]] |})
  end.
Proof.
  unfold id5100_set_mode, fn, bind, Return, icom_transaction.
  destruct (set_mode_switch mode) as [[icmode modebuf]|]; [|reflexivity].
  destruct (transact (rigport rig) C_SET_MODE icmode [modebuf]) as [q [rc ack]].
  reflexivity.
Qed.

(** What [id5100_get_mode] computes once the link has answered. *)
Lemma id5100_get_mode_eq (vfo : vfo_t) (mode : rmode_t) (width : pbwidth_t)
  (rig : RIG) (p : link) (retval : int) (modebuf : list Z) :
  transact (rigport rig) C_RD_MODE (-1) [] = (p, (retval, modebuf)) ->
  id5100_get_mode vfo mode width rig =
  ((if retval =? RIG_OK
    then (RIG_OK, get_mode_switch modebuf mode width)
    else (retval, (mode, width))),
   {| state := state rig;
      rigport := p;
      issued := issued rig ++ [Transaction C_RD_MODE (-1) []] |}).
Proof.
  intros T.
  unfold id5100_get_mode, fn, bind, when, Return, pure, icom_transaction.
  rewrite T. destruct (retval =? RIG_OK); reflexivity.
Qed.

Lemma set_mode_switch_table (m : rmode_t) (icmode modebuf : Z) :
  all_distinct [RIG_MODE_AM; RIG_MODE_AMN; RIG_MODE_FM; RIG_MODE_FMN;
                RIG_MODE_DSTAR] = true ->
  In (m, (icmode, modebuf))
     [(RIG_MODE_AM, (2, 1)); (RIG_MODE_AMN, (2, 2)); (RIG_MODE_FM, (5, 1));
      (RIG_MODE_FMN, (5, 2)); (RIG_MODE_DSTAR, (0x17, 1))] ->
  set_mode_switch m = Some (icmode, modebuf).
Proof.
  intros D Hin. distinct D. unfold set_mode_switch.
  cbn [In] in Hin.
  repeat match type of Hin with
         | _ \/ _ => destruct Hin as [Hin|Hin]
         end; try contradiction.
  all: injection Hin as <- <- <-.
  all: rewrite ?Z.eqb_refl.
  all: repeat match goal with
       | E : (?a =? ?b) = false |- _ =>
           rewrite ?E, ?(eqb_sym_false _ _ E); clear E
       end.
  all: reflexivity.
Qed.

(** C3. Mode round trip.  For each of the five modes, [id5100_set_mode]
    sends one [C_SET_MODE] frame carrying a pair (mode code, sub-code), and
    [id5100_get_mode], when the radio reports that pair, returns [RIG_OK],
    the same mode and its fixed width: 12000 Hz for AM, 6000 Hz for AM
    narrow, 10000 Hz for FM, 5000 Hz for FM narrow, 6000 Hz for D-STAR.  In
    particular the reported pair (5, 2) is decoded as FM narrow, 5000 Hz. *)
Theorem mode_round_trip :
  all_distinct [RIG_MODE_AM; RIG_MODE_AMN; RIG_MODE_FM; RIG_MODE_FMN;
                RIG_MODE_DSTAR] = true ->
  (forall m bw,
     In (m, bw) [(RIG_MODE_AM, 12000); (RIG_MODE_AMN, 6000);
                 (RIG_MODE_FM, 10000); (RIG_MODE_FMN, 5000);
                 (RIG_MODE_DSTAR, 6000)] ->
     exists icmode modebuf,
       set_mode_switch m = Some (icmode, modebuf) /\
       (forall vfo width rig,
          issued (snd (id5100_set_mode vfo m width rig)) =
          issued rig ++ [Transaction C_SET_MODE icmode [modebuf]]) /\
       (forall vfo mode0 width0 rig p c0 rest,
          transact (rigport rig) C_RD_MODE (-1) [] =
            (p, (RIG_OK, c0 :: icmode :: modebuf :: rest)) ->
          fst (id5100_get_mode vfo mode0 width0 rig) = (RIG_OK, (m, bw)))) /\
  (forall vfo mode0 width0 rig p c0 rest,
     transact (rigport rig) C_RD_MODE (-1) [] =
       (p, (RIG_OK, c0 :: 5 :: 2 :: rest)) ->
     fst (id5100_get_mode vfo mode0 width0 rig) =
     (RIG_OK, (RIG_MODE_FMN, 5000))).
Proof.
  intros D. split.
  - intros m bw Hin.
    assert (exists icmode modebuf,
              In (m, (icmode, modebuf))
                 [(RIG_MODE_AM, (2, 1)); (RIG_MODE_AMN, (2, 2));
                  (RIG_MODE_FM, (5, 1)); (RIG_MODE_FMN, (5, 2));
                  (RIG_MODE_DSTAR, (0x17, 1))] /\
              forall c0 rest mode0 width0,
                get_mode_switch (c0 :: icmode :: modebuf :: rest) mode0 width0
                = (m, bw)) as (icmode & modebuf & Htab & Hdec).
    { cbn [In] in Hin.
      repeat match type of Hin with
             | _ \/ _ => destruct Hin as [Hin|Hin]
             end; try contradiction.
      all: injection Hin as <- <-.
      all: eexists; eexists; split;
        [ cbn [In]; first [ left; reflexivity
                          | right; left; reflexivity
                          | right; right; left; reflexivity
                          | right; right; right; left; reflexivity
                          | right; right; right; right; left; reflexivity ]
        | intros; reflexivity ]. }
    exists icmode, modebuf.
    pose proof (set_mode_switch_table m icmode modebuf D Htab) as Hsw.
    split; [exact Hsw|]. split.
    + intros vfo width rig. rewrite id5100_set_mode_eq, Hsw. reflexivity.
    + intros vfo mode0 width0 rig p c0 rest T.
      rewrite (id5100_get_mode_eq _ _ _ _ _ _ _ T), Z.eqb_refl.
      cbn [fst]. rewrite Hdec. reflexivity.
  - intros vfo mode0 width0 rig p c0 rest T.
    rewrite (id5100_get_mode_eq _ _ _ _ _ _ _ T), Z.eqb_refl.
    reflexivity.
Qed.

(** C4, as the code has it.  When the radio reports mode code 2 or 5 with a
    sub-code other than 1 (the listed sub-code 2 or any other value),
    [id5100_get_mode] returns [RIG_OK] with the narrow mode of the family:
    AM narrow and 6000 Hz for code 2, FM narrow and 5000 Hz for code 5. *)
Theorem get_mode_other_subcode (vfo : vfo_t) (mode0 : rmode_t)
  (width0 : pbwidth_t) (rig : RIG) (p : link) (c0 code sub : Z)
  (rest : list Z) :
  code = 2 \/ code = 5 ->
  sub <> 1 ->
  transact (rigport rig) C_RD_MODE (-1) [] =
    (p, (RIG_OK, c0 :: code :: sub :: rest)) ->
  fst (id5100_get_mode vfo mode0 width0 rig) =
  (RIG_OK, (if code =? 2 then RIG_MODE_AMN else RIG_MODE_FMN,
            if code =? 2 then 6000 else 5000)).
Proof.
  intros Hcode Hsub T.
  rewrite (id5100_get_mode_eq _ _ _ _ _ _ _ T), Z.eqb_refl.
  apply Z.eqb_neq in Hsub.
  unfold get_mode_switch, byte_at. cbn [fst nth].
  destruct Hcode as [-> | ->]; cbn [Z.eqb Pos.eqb]; rewrite Hsub; reflexivity.
Qed.

(** The [switch] of [id5100_get_mode] has no [default]: a mode code other
    than 2, 5 and 0x17 still gives [RIG_OK], and the caller's cells are left
    as they were. *)
Lemma get_mode_no_default (vfo : vfo_t) (mode0 : rmode_t)
  (width0 : pbwidth_t) (rig : RIG) (p : link) (c0 code sub : Z)
  (rest : list Z) :
  code <> 2 -> code <> 5 -> code <> 0x17 ->
  transact (rigport rig) C_RD_MODE (-1) [] =
    (p, (RIG_OK, c0 :: code :: sub :: rest)) ->
  fst (id5100_get_mode vfo mode0 width0 rig) = (RIG_OK, (mode0, width0)).
Proof.
  intros N2 N5 N17 T.
  rewrite (id5100_get_mode_eq _ _ _ _ _ _ _ T), Z.eqb_refl.
  apply Z.eqb_neq in N2, N5, N17.
  unfold get_mode_switch, byte_at. cbn [fst nth].
  rewrite N2, N5, N17. reflexivity.
Qed.

(** C8. [id5100_set_mode] on a mode other than the five supported ones
    returns [-RIG_EINVAL] and leaves the handle, log included, as it was (no
    frame is sent); on each supported mode it sends exactly one frame,
    [C_SET_MODE] with the mode code as sub-command and the sub-code as the
    one payload byte, and returns the status of that frame. *)
Theorem set_mode_supported_or_invalid (vfo : vfo_t) (mode : rmode_t)
  (width : pbwidth_t) (rig : RIG) :
  all_distinct [RIG_MODE_AM; RIG_MODE_AMN; RIG_MODE_FM; RIG_MODE_FMN;
                RIG_MODE_DSTAR] = true ->
  (mode <> RIG_MODE_AM -> mode <> RIG_MODE_AMN -> mode <> RIG_MODE_FM ->
   mode <> RIG_MODE_FMN -> mode <> RIG_MODE_DSTAR ->
   id5100_set_mode vfo mode width rig = (- RIG_EINVAL, rig)) /\
  (forall icmode modebuf,
     In (mode, (icmode, modebuf))
        [(RIG_MODE_AM, (2, 1)); (RIG_MODE_AMN, (2, 2)); (RIG_MODE_FM, (5, 1));
         (RIG_MODE_FMN, (5, 2)); (RIG_MODE_DSTAR, (0x17, 1))] ->
     issued (snd (id5100_set_mode vfo mode width rig)) =
       issued rig ++ [Transaction C_SET_MODE icmode [modebuf]] /\
     fst (id5100_set_mode vfo mode width rig) =
       fst (snd (transact (rigport rig) C_SET_MODE icmode [modebuf]))).
Proof.
  intros D. split.
  - intros N1 N2 N3 N4 N5. apply Z.eqb_neq in N1, N2, N3, N4, N5.
    rewrite id5100_set_mode_eq. unfold set_mode_switch.
    rewrite N1, N2, N3, N4, N5. reflexivity.
  - intros icmode modebuf Hin.
    rewrite id5100_set_mode_eq, (set_mode_switch_table _ _ _ D Hin).
    split; reflexivity.
Qed.

(** The two outcomes of [id5100_set_split_vfo]. *)
Lemma set_split_vfo_cases (rig_set_vfo : vfo_t -> RIG -> int * RIG)
  (vfo : vfo_t) (split : split_t) (tx_vfo : vfo_t) (rig : RIG) :
  id5100_set_split_vfo rig_set_vfo vfo split tx_vfo rig =
    rig_set_vfo RIG_VFO_SUB rig \/
  id5100_set_split_vfo rig_set_vfo vfo split tx_vfo rig = (- RIG_EINVAL, rig).
Proof.
  unfold id5100_set_split_vfo, fn, bind, call_fn, Return, pure.
  destruct ((tx_vfo =? RIG_VFO_A) || (tx_vfo =? RIG_VFO_MAIN)).
  - left. destruct (rig_set_vfo RIG_VFO_SUB rig) as [rc rig']. reflexivity.
  - right. reflexivity.
Qed.

(** C5. [id5100_set_split_vfo] with a transmit VFO equal to A or Main is
    the call [rig_set_vfo(rig, RIG_VFO_SUB)], result and effects alike; with
    any other transmit VFO (B and Sub included) it returns [-RIG_EINVAL]
    and leaves the handle, log included, as it was. *)
Theorem set_split_vfo_pairing (rig_set_vfo : vfo_t -> RIG -> int * RIG)
  (vfo : vfo_t) (split : split_t) (tx_vfo : vfo_t) (rig : RIG) :
  ((tx_vfo = RIG_VFO_A \/ tx_vfo = RIG_VFO_MAIN) ->
   id5100_set_split_vfo rig_set_vfo vfo split tx_vfo rig =
   rig_set_vfo RIG_VFO_SUB rig) /\
  (tx_vfo <> RIG_VFO_A -> tx_vfo <> RIG_VFO_MAIN ->
   id5100_set_split_vfo rig_set_vfo vfo split tx_vfo rig =
   (- RIG_EINVAL, rig)).
Proof.
  unfold id5100_set_split_vfo, fn, bind, call_fn, Return, pure.
  split.
  - intros Htx.
    assert ((tx_vfo =? RIG_VFO_A) || (tx_vfo =? RIG_VFO_MAIN) = true) as ->.
    { destruct Htx as [-> | ->]; rewrite Z.eqb_refl, ?orb_true_r; reflexivity. }
    destruct (rig_set_vfo RIG_VFO_SUB rig) as [rc rig']. reflexivity.
  - intros NA NM. apply Z.eqb_neq in NA, NM. rewrite NA, NM. reflexivity.
Qed.

(** C10. The [split] argument of [id5100_set_split_vfo] has no influence:
    two calls that differ in it alone give the same result and the same
    final handle (link state, log and private data). *)
Theorem set_split_vfo_ignores_split (rig_set_vfo : vfo_t -> RIG -> int * RIG)
  (vfo : vfo_t) (split1 split2 : split_t) (tx_vfo : vfo_t) (rig : RIG) :
  id5100_set_split_vfo rig_set_vfo vfo split1 tx_vfo rig =
  id5100_set_split_vfo rig_set_vfo vfo split2 tx_vfo rig.
Proof. reflexivity. Qed.

(** The value of [x25cmdfails] after [id5100_set_vfo]. *)
Lemma set_vfo_x25cmdfails (vfo : vfo_t) (rig : RIG) :
  x25cmdfails (priv (state (snd (id5100_set_vfo vfo rig)))) =
  if ((resolved vfo rig =? RIG_VFO_A) || (resolved vfo rig =? RIG_VFO_B))
     || ((resolved vfo rig =? RIG_VFO_MAIN) || (resolved vfo rig =? RIG_VFO_SUB))
  then 1
  else x25cmdfails (priv (state rig)).
Proof.
  rewrite id5100_set_vfo_eq. cbv zeta.
  destruct ((resolved vfo rig =? RIG_VFO_A) || (resolved vfo rig =? RIG_VFO_B));
    [| destruct ((resolved vfo rig =? RIG_VFO_MAIN)
                 || (resolved vfo rig =? RIG_VFO_SUB)) ];
    cbn [orb].
  all: try destruct (dual_watch (priv (state rig)) =? 0).
  all: try (rewrite select_frame_state; reflexivity).
  all: destruct (toggle _ (set_x25cmdfails 1 rig)) as [rc rig2] eqn:T.
  all: match type of T with
       | toggle ?st ?r = _ =>
           pose proof (toggle_state st r) as TS; rewrite T in TS;
           cbn [snd] in TS
       end.
  all: destruct (RIG_OK =? rc); rewrite ?select_frame_state.
  all: unfold set_dual_watch, with_priv; simpl; rewrite TS; reflexivity.
Qed.

Lemma set_vfo_keeps_x25cmdfails (vfo : vfo_t) (rig : RIG) :
  x25cmdfails (priv (state rig)) <> 0 ->
  x25cmdfails (priv (state (snd (id5100_set_vfo vfo rig)))) <> 0.
Proof.
  intros Hx. rewrite set_vfo_x25cmdfails.
  destruct (_ || _); [discriminate | exact Hx].
Qed.

Lemma set_mode_state (vfo : vfo_t) (mode : rmode_t) (width : pbwidth_t)
  (rig : RIG) :
  state (snd (id5100_set_mode vfo mode width rig)) = state rig.
Proof.
  rewrite id5100_set_mode_eq.
  destruct (set_mode_switch mode) as [[icmode modebuf]|]; reflexivity.
Qed.

Lemma get_mode_state (vfo : vfo_t) (mode : rmode_t) (width : pbwidth_t)
  (rig : RIG) :
  state (snd (id5100_get_mode vfo mode width rig)) = state rig.
Proof.
  destruct (transact (rigport rig) C_RD_MODE (-1) []) as [p [rc buf]] eqn:T.
  rewrite (id5100_get_mode_eq _ _ _ _ _ _ _ T). reflexivity.
Qed.

(** C6. [x25cmdfails] is set to 1 by every [id5100_set_vfo] whose request
    resolves to A, B, Main or Sub, whichever of the two groups it is in (so
    in particular by every such call that succeeds), and no sequence of
    set-mode, get-mode, set-vfo and set-split-vfo operations takes it from
    non-zero back to zero.  The front-end entry [rig_set_vfo] used by the
    split operation is assumed not to clear the flag either. *)
Theorem x25cmdfails_monotone (rig_set_vfo : vfo_t -> RIG -> int * RIG) :
  (forall v r,
     x25cmdfails (priv (state r)) <> 0 ->
     x25cmdfails (priv (state (snd (rig_set_vfo v r)))) <> 0) ->
  (forall vfo rig,
     resolved vfo rig = RIG_VFO_A \/ resolved vfo rig = RIG_VFO_B \/
     resolved vfo rig = RIG_VFO_MAIN \/ resolved vfo rig = RIG_VFO_SUB ->
     x25cmdfails (priv (state (snd (id5100_set_vfo vfo rig)))) = 1) /\
  (forall ops rig,
     x25cmdfails (priv (state rig)) <> 0 ->
     x25cmdfails (priv (state (exec_all rig_set_vfo ops rig))) <> 0).
Proof.
  intros Hfront. split.
  - intros vfo rig Hv. rewrite set_vfo_x25cmdfails.
    destruct Hv as [-> | [-> | [-> | ->]]];
      rewrite Z.eqb_refl, ?orb_true_r; reflexivity.
  - unfold exec_all. induction ops as [|o ops IH]; intros rig Hx.
    + exact Hx.
    + cbn [fold_left]. apply IH.
      destruct o as [vfo mode width | vfo mode width | vfo | vfo split tx_vfo];
        cbn [exec].
      * rewrite set_mode_state. exact Hx.
      * rewrite get_mode_state. exact Hx.
      * apply set_vfo_keeps_x25cmdfails. exact Hx.
      * destruct (set_split_vfo_cases rig_set_vfo vfo split tx_vfo rig)
          as [-> | ->]; [apply Hfront; exact Hx | exact Hx].
Qed.

(** ** Further properties of the VFO selector *)

Lemma toggle_flagged_state (status : int) (rig : RIG) (rc : int) (rig2 : RIG) :
  toggle status (set_x25cmdfails 1 rig) = (rc, rig2) ->
  state rig2 = state (set_x25cmdfails 1 rig).
Proof.
  intros T. pose proof (toggle_state status (set_x25cmdfails 1 rig)) as TS.
  rewrite T in TS. exact TS.
Qed.

Ltac set_vfo_branches vfo rig :=
  rewrite id5100_set_vfo_eq; cbv zeta;
  destruct ((resolved vfo rig =? RIG_VFO_A) || (resolved vfo rig =? RIG_VFO_B))
    eqn:GA;
  [| destruct ((resolved vfo rig =? RIG_VFO_MAIN)
               || (resolved vfo rig =? RIG_VFO_SUB)) eqn:GM ];
  try destruct (Z.eqb_spec (dual_watch (priv (state rig))) 0) as [Z0|Z0].

Ltac toggle_branch :=
  match goal with
  | |- context [toggle ?st (set_x25cmdfails 1 ?r)] =>
      let rc := fresh "rc" in
      let rig2 := fresh "rig2" in
      let T := fresh "T" in
      let TS := fresh "TS" in
      let TI := fresh "TI" in
      let TR := fresh "TR" in
      destruct (toggle st (set_x25cmdfails 1 r)) as [rc rig2] eqn:T;
      pose proof (toggle_flagged_state _ _ _ _ T) as TS;
      apply toggle_flagged_issued in T; destruct T as (TI & _ & TR)
  end.

(** The state left by [id5100_set_vfo]: the active VFO is the old one. *)
Lemma set_vfo_current_vfo (vfo : vfo_t) (rig : RIG) :
  current_vfo (state (snd (id5100_set_vfo vfo rig))) = current_vfo (state rig).
Proof.
  set_vfo_branches vfo rig.
  all: try (rewrite select_frame_state; reflexivity).
  all: toggle_branch; destruct (RIG_OK =? rc); rewrite ?select_frame_state.
  all: cbn [snd set_dual_watch with_priv state current_vfo]; rewrite TS.
  all: reflexivity.
Qed.

(** X1. [id5100_set_vfo] does not record the VFO it selects: [current_vfo] is
    left as it was, so a [RIG_VFO_CURR] request resolves after the call to
    what it resolved to before. *)
Theorem set_vfo_keeps_current_vfo (vfo v : vfo_t) (rig : RIG) :
  current_vfo (state (snd (id5100_set_vfo vfo rig))) =
    current_vfo (state rig) /\
  resolved v (snd (id5100_set_vfo vfo rig)) = resolved v rig.
Proof.
  split; [apply set_vfo_current_vfo|].
  unfold resolved. rewrite set_vfo_current_vfo. reflexivity.
Qed.

(** X2. [dual_watch] after [id5100_set_vfo] is the old value unless a dual-watch
    request was acknowledged with [RIG_OK]; in that case it is the status
    (0 or 1) that was requested, and the request is followed by the select
    frame. *)
Theorem dual_watch_follows_acknowledged_request (vfo : vfo_t) (rig : RIG) :
  dual_watch (priv (state (snd (id5100_set_vfo vfo rig)))) =
    dual_watch (priv (state rig)) \/
  exists status,
    (status = 0 \/ status = 1) /\
    dual_watch (priv (state (snd (id5100_set_vfo vfo rig)))) = status /\
    fst (toggle status rig) = RIG_OK /\
    issued (snd (id5100_set_vfo vfo rig)) =
      issued rig ++ [SetFunc RIG_VFO_CURR RIG_FUNC_DUAL_WATCH status;
                     Transaction C_SET_VFO (selector (resolved vfo rig)) []].
Proof.
  unfold selector. set_vfo_branches vfo rig.
  all: try (left; rewrite select_frame_state; reflexivity).
  all: toggle_branch; destruct (Z.eqb_spec RIG_OK rc) as [Ok|No].
  all: try (left; cbn [snd]; rewrite TS; reflexivity).
  all: right; eexists.
  all: rewrite select_frame_state, select_frame_issued.
  all: cbn [set_dual_watch with_priv state priv dual_watch issued].
  all: rewrite TI, <- app_assoc.
  all: split; [| split; [reflexivity | split; [congruence | reflexivity]]].
  all: auto.
Qed.

(** X3. The calls [id5100_set_vfo] makes on any request: the select frame alone,
    or one dual-watch request (status 0 or 1) alone, or that request followed
    by the select frame.  Never two requests of a kind, never a select frame
    before a dual-watch request, never no call at all. *)
Theorem set_vfo_log_shape (vfo : vfo_t) (rig : RIG) :
  issued (snd (id5100_set_vfo vfo rig)) =
    issued rig ++ [Transaction C_SET_VFO (selector (resolved vfo rig)) []] \/
  exists status,
    (status = 0 \/ status = 1) /\
    (issued (snd (id5100_set_vfo vfo rig)) =
       issued rig ++ [SetFunc RIG_VFO_CURR RIG_FUNC_DUAL_WATCH status] \/
     issued (snd (id5100_set_vfo vfo rig)) =
       issued rig ++ [SetFunc RIG_VFO_CURR RIG_FUNC_DUAL_WATCH status;
                      Transaction C_SET_VFO (selector (resolved vfo rig)) []]).
Proof.
  unfold selector. set_vfo_branches vfo rig.
  all: try (left; rewrite select_frame_issued; reflexivity).
  all: right; toggle_branch; eexists; split; [shelve|].
  all: destruct (RIG_OK =? rc); [right | left; exact TI].
  all: rewrite select_frame_issued; cbn [set_dual_watch with_priv issued].
  all: rewrite TI, <- app_assoc; reflexivity.
  Unshelve.
  all: auto.
Qed.

Lemma set_vfo_ok_select (vfo : vfo_t) (rig : RIG) :
  fst (id5100_set_vfo vfo rig) = RIG_OK ->
  exists mid,
    id5100_set_vfo vfo rig = select_frame (selector (resolved vfo rig)) mid.
Proof.
  unfold selector. set_vfo_branches vfo rig.
  all: try (intros _; eexists; reflexivity).
  all: toggle_branch; destruct (Z.eqb_spec RIG_OK rc) as [Ok|No].
  all: try (intros _; eexists; reflexivity).
  all: cbn [fst]; intros E; congruence.
Qed.


Lemma set_vfo_ok_dual_watch (vfo : vfo_t) (rig : RIG) :
  all_distinct [RIG_VFO_A; RIG_VFO_B; RIG_VFO_MAIN; RIG_VFO_SUB] = true ->
  fst (id5100_set_vfo vfo rig) = RIG_OK ->
  ((resolved vfo rig = RIG_VFO_A \/ resolved vfo rig = RIG_VFO_B) ->
   dual_watch (priv (state (snd (id5100_set_vfo vfo rig)))) = 0) /\
  ((resolved vfo rig = RIG_VFO_MAIN \/ resolved vfo rig = RIG_VFO_SUB) ->
   dual_watch (priv (state (snd (id5100_set_vfo vfo rig)))) <> 0).
Proof.
  intros D.
  destruct (group_tests (resolved vfo rig) D) as (HA & HB & HM & HS).
  rewrite id5100_set_vfo_eq. cbv zeta. intros Hok.
  split; intros [E|E]; revert Hok; pick_branch HA HB HM HS E.
  all: destruct (Z.eqb_spec (dual_watch (priv (state rig))) 0) as [Z0|Z0].
  all: try (intros _; rewrite select_frame_state; cbn; assumption).
  all: toggle_branch; destruct (Z.eqb_spec RIG_OK rc) as [Ok|No].
  all: try (cbn [fst]; intros E0; congruence).
  all: intros _; rewrite select_frame_state; cbn; try reflexivity.
  all: discriminate.
Qed.

(** X5. After an [id5100_set_vfo] that returns [RIG_OK], the stored dual-watch
    value agrees with the group of the request: 0 for A and B, non-zero for
    Main and Sub. *)
Theorem set_vfo_ok_dual_watch_matches_group (vfo : vfo_t) (rig : RIG) :
  all_distinct [RIG_VFO_A; RIG_VFO_B; RIG_VFO_MAIN; RIG_VFO_SUB] = true ->
  fst (id5100_set_vfo vfo rig) = RIG_OK ->
  ((resolved vfo rig = RIG_VFO_A \/ resolved vfo rig = RIG_VFO_B) ->
   dual_watch (priv (state (snd (id5100_set_vfo vfo rig)))) = 0) /\
  ((resolved vfo rig = RIG_VFO_MAIN \/ resolved vfo rig = RIG_VFO_SUB) ->
   dual_watch (priv (state (snd (id5100_set_vfo vfo rig)))) <> 0).
Proof. exact (set_vfo_ok_dual_watch vfo rig). Qed.

(** X6. The two-step path in full.  When the request needs the dual-watch state
    changed to [status], the link acknowledges that request and then answers
    the select frame with [rc] (success or not), [id5100_set_vfo] returns
    [rc]; [dual_watch] holds [status] and [x25cmdfails] holds 1 even when
    the select frame failed (the dual-watch change is not undone); the log
    gains the request and the select frame, in this order. *)
Theorem set_vfo_two_step_result (vfo : vfo_t) (rig : RIG) (status : int)
  (p1 p2 : link) (rc : int) (ackbuf : list Z) :
  all_distinct [RIG_VFO_A; RIG_VFO_B; RIG_VFO_MAIN; RIG_VFO_SUB] = true ->
  ((resolved vfo rig = RIG_VFO_A \/ resolved vfo rig = RIG_VFO_B) /\
   dual_watch (priv (state rig)) <> 0 /\ status = 0) \/
  ((resolved vfo rig = RIG_VFO_MAIN \/ resolved vfo rig = RIG_VFO_SUB) /\
   dual_watch (priv (state rig)) = 0 /\ status = 1) ->
  set_function (rigport rig) RIG_VFO_CURR RIG_FUNC_DUAL_WATCH status =
    (p1, RIG_OK) ->
  transact p1 C_SET_VFO (selector (resolved vfo rig)) [] =
    (p2, (rc, ackbuf)) ->
  id5100_set_vfo vfo rig =
  (rc,
   {| state := {| current_vfo := current_vfo (state rig);
                  priv := {| dual_watch := status; x25cmdfails := 1 |} |};
      rigport := p2;
      issued := issued rig ++
                [SetFunc RIG_VFO_CURR RIG_FUNC_DUAL_WATCH status;
                 Transaction C_SET_VFO (selector (resolved vfo rig)) []] |}).
Proof.
  intros D Hcase Hfun Hsel.
  destruct (group_tests (resolved vfo rig) D) as (HA & HB & HM & HS).
  rewrite id5100_set_vfo_eq. cbv zeta. revert Hsel. unfold selector.
  destruct Hcase as [([E|E] & Hdw & ->) | ([E|E] & Hdw & ->)];
    pick_branch HA HB HM HS E.
  all: destruct (Z.eqb_spec (dual_watch (priv (state rig))) 0) as [Z0|Z0];
    try contradiction.
  all: intros Hsel.
  all: unfold toggle, select_frame, set_dual_watch, set_x25cmdfails, with_priv.
  all: cbn [rigport state priv issued current_vfo dual_watch x25cmdfails].
  all: rewrite Hfun, Z.eqb_refl.
  all: cbn [rigport state priv issued current_vfo dual_watch x25cmdfails].
  all: rewrite Hsel, <- app_assoc; reflexivity.
Qed.

Lemma set_vfo_matching_group_log (vfo : vfo_t) (rig : RIG) :
  all_distinct [RIG_VFO_A; RIG_VFO_B; RIG_VFO_MAIN; RIG_VFO_SUB] = true ->
  ((resolved vfo rig = RIG_VFO_A \/ resolved vfo rig = RIG_VFO_B) /\
   dual_watch (priv (state rig)) = 0) \/
  ((resolved vfo rig = RIG_VFO_MAIN \/ resolved vfo rig = RIG_VFO_SUB) /\
   dual_watch (priv (state rig)) <> 0) ->
  issued (snd (id5100_set_vfo vfo rig)) =
  issued rig ++ [Transaction C_SET_VFO (selector (resolved vfo rig)) []].
Proof.
  intros D Hcase.
  destruct (group_tests (resolved vfo rig) D) as (HA & HB & HM & HS).
  rewrite id5100_set_vfo_eq. cbv zeta. unfold selector.
  destruct Hcase as [([E|E] & Hdw) | ([E|E] & Hdw)];
    pick_branch HA HB HM HS E.
  all: destruct (Z.eqb_spec (dual_watch (priv (state rig))) 0) as [Z0|Z0];
    try contradiction.
  all: rewrite select_frame_issued; reflexivity.
Qed.

(** X7. Two selections in a row inside one group.  If a first request for A or B
    (for Main or Sub) returns [RIG_OK], a second request for A or B (for Main
    or Sub) on the resulting handle makes one call only, the select frame:
    no further dual-watch request is sent. *)
Theorem set_vfo_same_group_again (vfo1 vfo2 : vfo_t) (rig : RIG) :
  all_distinct [RIG_VFO_A; RIG_VFO_B; RIG_VFO_MAIN; RIG_VFO_SUB] = true ->
  fst (id5100_set_vfo vfo1 rig) = RIG_OK ->
  ((resolved vfo1 rig = RIG_VFO_A \/ resolved vfo1 rig = RIG_VFO_B) /\
   (resolved vfo2 rig = RIG_VFO_A \/ resolved vfo2 rig = RIG_VFO_B)) \/
  ((resolved vfo1 rig = RIG_VFO_MAIN \/ resolved vfo1 rig = RIG_VFO_SUB) /\
   (resolved vfo2 rig = RIG_VFO_MAIN \/ resolved vfo2 rig = RIG_VFO_SUB)) ->
  issued (snd (id5100_set_vfo vfo2 (snd (id5100_set_vfo vfo1 rig)))) =
  issued (snd (id5100_set_vfo vfo1 rig)) ++
  [Transaction C_SET_VFO (selector (resolved vfo2 rig)) []].
Proof.
  intros D Hok Hcase.
  destruct (set_vfo_ok_dual_watch vfo1 rig D Hok) as [Hab Hms].
  assert (R : resolved vfo2 (snd (id5100_set_vfo vfo1 rig)) =
              resolved vfo2 rig).
  { unfold resolved. rewrite set_vfo_current_vfo. reflexivity. }
  rewrite <- R. apply set_vfo_matching_group_log; [exact D|].
  rewrite R.
  destruct Hcase as [[H1 H2] | [H1 H2]]; [left | right]; auto.
Qed.

Lemma set_vfo_mismatch_log (vfo : vfo_t) (rig : RIG) (status : int) :
  all_distinct [RIG_VFO_A; RIG_VFO_B; RIG_VFO_MAIN; RIG_VFO_SUB] = true ->
  ((resolved vfo rig = RIG_VFO_A \/ resolved vfo rig = RIG_VFO_B) /\
   dual_watch (priv (state rig)) <> 0 /\ status = 0) \/
  ((resolved vfo rig = RIG_VFO_MAIN \/ resolved vfo rig = RIG_VFO_SUB) /\
   dual_watch (priv (state rig)) = 0 /\ status = 1) ->
  (exists rest,
     issued (snd (id5100_set_vfo vfo rig)) =
     issued rig ++ SetFunc RIG_VFO_CURR RIG_FUNC_DUAL_WATCH status :: rest) /\
  (fst (id5100_set_vfo vfo rig) <> RIG_OK ->
   fst (toggle status rig) <> RIG_OK ->
   dual_watch (priv (state (snd (id5100_set_vfo vfo rig)))) =
   dual_watch (priv (state rig))).
Proof.
  intros D Hcase.
  destruct (group_tests (resolved vfo rig) D) as (HA & HB & HM & HS).
  rewrite id5100_set_vfo_eq. cbv zeta.
  destruct Hcase as [([E|E] & Hdw & ->) | ([E|E] & Hdw & ->)];
    pick_branch HA HB HM HS E.
  all: destruct (Z.eqb_spec (dual_watch (priv (state rig))) 0) as [Z0|Z0];
    try contradiction.
  all: toggle_branch; destruct (Z.eqb_spec RIG_OK rc) as [Ok|No].
  all: split; [| intros _ Hno; try congruence; cbn [snd]; rewrite TS;
                 reflexivity ].
  all: try (eexists; exact TI).
  all: eexists; rewrite select_frame_issued.
  all: cbn [set_dual_watch with_priv issued]; rewrite TI, <- app_assoc.
  all: reflexivity.
Qed.

(** X8. Changing group costs a dual-watch request each time.  If a request in
    one group returns [RIG_OK], the next request, when it is for the other
    group, starts with the dual-watch request for that group (status 1 after
    A or B, status 0 after Main or Sub). *)
Theorem set_vfo_group_change_toggles (vfo1 vfo2 : vfo_t) (rig : RIG)
  (status : int) :
  all_distinct [RIG_VFO_A; RIG_VFO_B; RIG_VFO_MAIN; RIG_VFO_SUB] = true ->
  fst (id5100_set_vfo vfo1 rig) = RIG_OK ->
  ((resolved vfo1 rig = RIG_VFO_A \/ resolved vfo1 rig = RIG_VFO_B) /\
   (resolved vfo2 rig = RIG_VFO_MAIN \/ resolved vfo2 rig = RIG_VFO_SUB) /\
   status = 1) \/
  ((resolved vfo1 rig = RIG_VFO_MAIN \/ resolved vfo1 rig = RIG_VFO_SUB) /\
   (resolved vfo2 rig = RIG_VFO_A \/ resolved vfo2 rig = RIG_VFO_B) /\
   status = 0) ->
  exists rest,
    issued (snd (id5100_set_vfo vfo2 (snd (id5100_set_vfo vfo1 rig)))) =
    issued (snd (id5100_set_vfo vfo1 rig)) ++
    SetFunc RIG_VFO_CURR RIG_FUNC_DUAL_WATCH status :: rest.
Proof.
  intros D Hok Hcase.
  destruct (set_vfo_ok_dual_watch vfo1 rig D Hok) as [Hab Hms].
  assert (R : resolved vfo2 (snd (id5100_set_vfo vfo1 rig)) =
              resolved vfo2 rig).
  { unfold resolved. rewrite set_vfo_current_vfo. reflexivity. }
  apply (set_vfo_mismatch_log vfo2 (snd (id5100_set_vfo vfo1 rig)) status D).
  rewrite R.
  destruct Hcase as [(H1 & H2 & ->) | (H1 & H2 & ->)]; [right | left]; auto.
Qed.

(** X9. Retrying after a refused dual-watch request.  When the dual-watch
    request of a call is refused, the call leaves [dual_watch] as it was, so
    the same request made again starts with the same dual-watch request. *)
Theorem set_vfo_retry_after_refusal (vfo : vfo_t) (rig : RIG) (status : int) :
  all_distinct [RIG_VFO_A; RIG_VFO_B; RIG_VFO_MAIN; RIG_VFO_SUB] = true ->
  ((resolved vfo rig = RIG_VFO_A \/ resolved vfo rig = RIG_VFO_B) /\
   dual_watch (priv (state rig)) <> 0 /\ status = 0) \/
  ((resolved vfo rig = RIG_VFO_MAIN \/ resolved vfo rig = RIG_VFO_SUB) /\
   dual_watch (priv (state rig)) = 0 /\ status = 1) ->
  fst (toggle status rig) <> RIG_OK ->
  exists rest,
    issued (snd (id5100_set_vfo vfo (snd (id5100_set_vfo vfo rig)))) =
    issued (snd (id5100_set_vfo vfo rig)) ++
    SetFunc RIG_VFO_CURR RIG_FUNC_DUAL_WATCH status :: rest.
Proof.
  intros D Hcase Hno.
  destruct (set_vfo_mismatch_log vfo rig status D Hcase) as [_ Hdw].
  assert (Hfail : fst (id5100_set_vfo vfo rig) <> RIG_OK).
  { intros Hok. destruct (set_vfo_ok_select vfo rig Hok) as [mid E].
    pose proof (f_equal (fun x => issued (snd x)) E) as EI.
    cbn beta in EI. rewrite select_frame_issued in EI.
    revert EI. rewrite id5100_set_vfo_eq. cbv zeta.
    destruct (group_tests (resolved vfo rig) D) as (HA & HB & HM & HS).
    destruct Hcase as [([E1|E1] & Hd & ->) | ([E1|E1] & Hd & ->)];
      pick_branch HA HB HM HS E1.
    all: destruct (Z.eqb_spec (dual_watch (priv (state rig))) 0) as [Z0|Z0];
      try contradiction.
    all: toggle_branch; destruct (Z.eqb_spec RIG_OK rc) as [Ok|No];
      [congruence|].
    all: cbn [snd]; rewrite TI; intros EI.
    all: apply app_inj_tail in EI; destruct EI as [_ EI]; discriminate EI. }
  specialize (Hdw Hfail Hno).
  assert (R : resolved vfo (snd (id5100_set_vfo vfo rig)) = resolved vfo rig).
  { unfold resolved. rewrite set_vfo_current_vfo. reflexivity. }
  apply (set_vfo_mismatch_log vfo (snd (id5100_set_vfo vfo rig)) status D).
  rewrite R, Hdw. exact Hcase.
Qed.

(** ** Further properties of the mode functions *)

(** X10. [id5100_get_mode] always sends exactly one frame, [C_RD_MODE] with
    sub-command -1 and no payload, and its status is the status of that
    frame.  When the frame fails the caller's mode and width cells keep their
    contents.  The private data and the active VFO are never touched. *)
Theorem get_mode_frame_and_status (vfo : vfo_t) (mode : rmode_t)
  (width : pbwidth_t) (rig : RIG) (p : link) (retval : int)
  (modebuf : list Z) :
  transact (rigport rig) C_RD_MODE (-1) [] = (p, (retval, modebuf)) ->
  fst (fst (id5100_get_mode vfo mode width rig)) = retval /\
  (retval <> RIG_OK ->
   snd (fst (id5100_get_mode vfo mode width rig)) = (mode, width)) /\
  snd (id5100_get_mode vfo mode width rig) =
    {| state := state rig;
       rigport := p;
       issued := issued rig ++ [Transaction C_RD_MODE (-1) []] |}.
Proof.
  intros T. rewrite (id5100_get_mode_eq _ _ _ _ _ _ _ T).
  destruct (Z.eqb_spec retval RIG_OK) as [-> | N]; cbn [fst snd].
  - repeat split. intros N. contradiction.
  - repeat split.
Qed.

Lemma set_mode_switch_inv (m : rmode_t) (icmode modebuf : Z) :
  set_mode_switch m = Some (icmode, modebuf) ->
  In (m, (icmode, modebuf))
     [(RIG_MODE_AM, (2, 1)); (RIG_MODE_AMN, (2, 2)); (RIG_MODE_FM, (5, 1));
      (RIG_MODE_FMN, (5, 2)); (RIG_MODE_DSTAR, (0x17, 1))].
Proof.
  unfold set_mode_switch. cbn [In].
  destruct (Z.eqb_spec m RIG_MODE_AM) as [-> |_];
    [intros E; injection E as <- <-; auto|].
  destruct (Z.eqb_spec m RIG_MODE_AMN) as [-> |_];
    [intros E; injection E as <- <-; auto|].
  destruct (Z.eqb_spec m RIG_MODE_FM) as [-> |_];
    [intros E; injection E as <- <-; auto|].
  destruct (Z.eqb_spec m RIG_MODE_FMN) as [-> |_];
    [intros E; injection E as <- <-; auto 6|].
  destruct (Z.eqb_spec m RIG_MODE_DSTAR) as [-> |_];
    [intros E; injection E as <- <-; auto 7|].
  discriminate.
Qed.

Lemma set_mode_switch_injective (m1 m2 : rmode_t) (icmode modebuf : Z) :
  set_mode_switch m1 = Some (icmode, modebuf) ->
  set_mode_switch m2 = Some (icmode, modebuf) ->
  m1 = m2.
Proof.
  intros E1 E2.
  apply set_mode_switch_inv in E1. apply set_mode_switch_inv in E2.
  cbn [In] in E1, E2.
  repeat match type of E1 with
         | _ \/ _ => destruct E1 as [E1|E1]
         end; try contradiction.
  all: injection E1 as <- <- <-.
  all: repeat match type of E2 with
         | _ \/ _ => destruct E2 as [E2|E2]
         end; try contradiction.
  all: try discriminate E2.
  all: injection E2 as <-; reflexivity.
Qed.

Lemma set_mode_sent (vfo : vfo_t) (mode : rmode_t) (width : pbwidth_t)
  (rig : RIG) (c : call) :
  issued (snd (id5100_set_mode vfo mode width rig)) = issued rig ++ [c] ->
  exists icmode modebuf,
    set_mode_switch mode = Some (icmode, modebuf) /\
    c = Transaction C_SET_MODE icmode [modebuf].
Proof.
  rewrite id5100_set_mode_eq.
  destruct (set_mode_switch mode) as [[icmode modebuf]|]; cbn [snd issued].
  - intros E. apply app_inv_head in E. injection E as <-.
    exists icmode, modebuf. split; reflexivity.
  - intros E. apply (f_equal (@length call)) in E.
    rewrite length_app in E. cbn [length] in E. lia.
Qed.

(** X11. The frame of [id5100_set_mode] identifies the mode: if two calls, on any
    handles and with any [vfo] and [width], each send the same call, they
    were made for the same mode. *)
Theorem set_mode_frame_identifies_mode (vfo1 vfo2 : vfo_t)
  (mode1 mode2 : rmode_t) (width1 width2 : pbwidth_t) (rig1 rig2 : RIG)
  (c : call) :
  issued (snd (id5100_set_mode vfo1 mode1 width1 rig1)) = issued rig1 ++ [c] ->
  issued (snd (id5100_set_mode vfo2 mode2 width2 rig2)) = issued rig2 ++ [c] ->
  mode1 = mode2.
Proof.
  intros E1 E2.
  apply set_mode_sent in E1. destruct E1 as (i1 & b1 & S1 & C1).
  apply set_mode_sent in E2. destruct E2 as (i2 & b2 & S2 & C2).
  rewrite C1 in C2. injection C2 as <- <-.
  exact (set_mode_switch_injective mode1 mode2 i1 b1 S1 S2).
Qed.

(** X12. Reading the mode and writing it back.  When the radio reports a mode
    code 2, 5 or 0x17 (with any sub-code), the mode stored by
    [id5100_get_mode] is accepted by [id5100_set_mode], whose frame carries
    the same mode code, and as sub-code: 1 for code 0x17, else 1 if the
    reported sub-code was 1 and 2 otherwise.  So the listed pairs (2,1),
    (2,2), (5,1), (5,2) and (0x17,1) are sent back unchanged. *)
Theorem get_mode_then_set_mode (vfo : vfo_t) (mode0 : rmode_t)
  (width0 : pbwidth_t) (rig : RIG) (p : link) (c0 code sub : Z)
  (rest : list Z) (vfo' : vfo_t) (width' : pbwidth_t) (rig' : RIG) :
  all_distinct [RIG_MODE_AM; RIG_MODE_AMN; RIG_MODE_FM; RIG_MODE_FMN;
                RIG_MODE_DSTAR] = true ->
  code = 2 \/ code = 5 \/ code = 0x17 ->
  transact (rigport rig) C_RD_MODE (-1) [] =
    (p, (RIG_OK, c0 :: code :: sub :: rest)) ->
  issued (snd (id5100_set_mode vfo'
                 (fst (snd (fst (id5100_get_mode vfo mode0 width0 rig))))
                 width' rig')) =
  issued rig' ++
  [Transaction C_SET_MODE code
     [if code =? 0x17 then 1 else if sub =? 1 then 1 else 2]].
Proof.
  intros D Hcode T.
  rewrite (id5100_get_mode_eq _ _ _ _ _ _ _ T), Z.eqb_refl.
  cbn [fst snd]. unfold get_mode_switch, byte_at. cbn [nth].
  rewrite id5100_set_mode_eq.
  destruct Hcode as [-> | [-> | ->]]; cbn [Z.eqb Pos.eqb fst].
  all: try destruct (sub =? 1).
  all: erewrite set_mode_switch_table; [reflexivity | exact D |].
  all: cbn [In]; auto 7.
Qed.

(** X13. [id5100_set_mode] leaves the active VFO and the private data alone, and
    its [vfo] and [width] arguments have no effect: the sub-code sent is
    fixed by the mode, whatever pass-band width is asked for. *)
Theorem set_mode_ignores_vfo_and_width (vfo vfo' : vfo_t) (mode : rmode_t)
  (width width' : pbwidth_t) (rig : RIG) :
  state (snd (id5100_set_mode vfo mode width rig)) = state rig /\
  id5100_set_mode vfo mode width rig = id5100_set_mode vfo' mode width' rig.
Proof. split; [apply set_mode_state | reflexivity]. Qed.

(** ** The masks of the capability table against the functions *)

Lemma single_flag_pow (z : Z) :
  single_flag z = true -> 0 <= Z.log2 z /\ z = 2 ^ Z.log2 z.
Proof.
  unfold single_flag. intros E. apply Z.eqb_eq in E.
  split; [apply Z.log2_nonneg | exact E].
Qed.

Lemma land_single_flags (v c : Z) :
  single_flag v = true -> single_flag c = true ->
  Z.land v c = if v =? c then v else 0.
Proof.
  intros Hv Hc.
  destruct (single_flag_pow v Hv) as [Kv Ev].
  destruct (single_flag_pow c Hc) as [Kc Ec].
  destruct (Z.eqb_spec v c) as [-> | N]; [apply Z.land_diag|].
  rewrite Ev, Ec. apply Z.bits_inj'. intros n Hn.
  rewrite Z.land_spec, Z.bits_0, !Z.pow2_bits_eqb by assumption.
  destruct (Z.eqb_spec (Z.log2 v) n) as [E1|_]; [|reflexivity].
  destruct (Z.eqb_spec (Z.log2 c) n) as [E2|_]; [|reflexivity].
  exfalso. apply N. rewrite Ev, Ec, E1, E2. reflexivity.
Qed.

Lemma single_flag_nonzero (v : Z) : single_flag v = true -> v <> 0.
Proof.
  intros Hv. destruct (single_flag_pow v Hv) as [Kv Ev].
  rewrite Ev. apply Z.pow_nonzero; [lia | exact Kv].
Qed.

(** A single flag meets a flag of a mask exactly when it is that flag. *)
Lemma land_single_flag_zero (v c : Z) :
  single_flag v = true -> single_flag c = true ->
  (Z.land v c = 0 <-> v <> c).
Proof.
  intros Hv Hc. rewrite (land_single_flags v c Hv Hc).
  pose proof (single_flag_nonzero v Hv) as NZ.
  destruct (Z.eqb_spec v c) as [E|N]; split; intros; congruence.
Qed.

Lemma set_mode_switch_none (mode : rmode_t) :
  set_mode_switch mode = None <->
  mode <> RIG_MODE_AM /\ mode <> RIG_MODE_AMN /\ mode <> RIG_MODE_FM /\
  mode <> RIG_MODE_FMN /\ mode <> RIG_MODE_DSTAR.
Proof.
  unfold set_mode_switch.
  destruct (Z.eqb_spec mode RIG_MODE_AM); [split; [discriminate | tauto]|].
  destruct (Z.eqb_spec mode RIG_MODE_AMN); [split; [discriminate | tauto]|].
  destruct (Z.eqb_spec mode RIG_MODE_FM); [split; [discriminate | tauto]|].
  destruct (Z.eqb_spec mode RIG_MODE_FMN); [split; [discriminate | tauto]|].
  destruct (Z.eqb_spec mode RIG_MODE_DSTAR); [split; [discriminate | tauto]|].
  tauto.
Qed.

(** X14. The mode mask advertised in the capability table and [id5100_set_mode]
    agree: with the five mode constants single flags, a single-flag mode is
    outside [ID5100_MODES] exactly when [id5100_set_mode] refuses it with
    [-RIG_EINVAL] without sending anything; the receive mask
    [ID5100_ALL_RX_MODES] is the same mask. *)
Theorem modes_mask_matches_set_mode (vfo : vfo_t) (mode : rmode_t)
  (width : pbwidth_t) (rig : RIG) :
  forallb single_flag [RIG_MODE_AM; RIG_MODE_AMN; RIG_MODE_FM; RIG_MODE_FMN;
                       RIG_MODE_DSTAR] = true ->
  single_flag mode = true ->
  (Z.land mode ID5100_MODES = 0 <->
   id5100_set_mode vfo mode width rig = (- RIG_EINVAL, rig)) /\
  (Z.land mode ID5100_MODES <> 0 ->
   exists icmode modebuf,
     issued (snd (id5100_set_mode vfo mode width rig)) =
     issued rig ++ [Transaction C_SET_MODE icmode [modebuf]]) /\
  ID5100_ALL_RX_MODES = ID5100_MODES.
Proof.
  intros F Hm. cbn [forallb] in F.
  rewrite !andb_true_iff in F. destruct F as (F1 & F2 & F3 & F4 & F5 & _).
  assert (M : Z.land mode ID5100_MODES = 0 <-> set_mode_switch mode = None).
  { rewrite set_mode_switch_none. unfold ID5100_MODES.
    rewrite !Z.land_lor_distr_r, !Z.lor_eq_0_iff.
    rewrite !land_single_flag_zero by assumption. tauto. }
  split; [|split].
  - rewrite M, id5100_set_mode_eq.
    destruct (set_mode_switch mode) as [[icmode modebuf]|].
    + split; [discriminate|]. intros E.
      apply (f_equal (fun x => length (issued (snd x)))) in E.
      cbn [snd issued] in E. rewrite length_app in E. cbn [length] in E. lia.
    + split; reflexivity.
  - intros NZ. rewrite id5100_set_mode_eq.
    destruct (set_mode_switch mode) as [[icmode modebuf]|] eqn:E.
    + exists icmode, modebuf. reflexivity.
    + exfalso. apply NZ. apply M. reflexivity.
  - unfold ID5100_ALL_RX_MODES, ID5100_MODES.
    rewrite !Z.lor_assoc, Z.lor_diag. reflexivity.
Qed.

(** X15. Every mode [id5100_get_mode] stores for a recognised mode code (2, 5 or
    0x17) is one of those advertised in [ID5100_MODES]. *)
Theorem get_mode_reports_advertised_mode (vfo : vfo_t) (mode0 : rmode_t)
  (width0 : pbwidth_t) (rig : RIG) (p : link) (c0 code sub : Z)
  (rest : list Z) :
  code = 2 \/ code = 5 \/ code = 0x17 ->
  transact (rigport rig) C_RD_MODE (-1) [] =
    (p, (RIG_OK, c0 :: code :: sub :: rest)) ->
  Z.land (fst (snd (fst (id5100_get_mode vfo mode0 width0 rig))))
    ID5100_MODES =
  fst (snd (fst (id5100_get_mode vfo mode0 width0 rig))).
Proof.
  intros Hcode T.
  rewrite (id5100_get_mode_eq _ _ _ _ _ _ _ T), Z.eqb_refl.
  cbn [fst snd]. unfold get_mode_switch, byte_at. cbn [nth].
  unfold ID5100_MODES.
  destruct Hcode as [-> | [-> | ->]]; cbn [Z.eqb Pos.eqb fst].
  all: try destruct (sub =? 1).
  all: apply Z.bits_inj'; intros n Hn.
  all: rewrite Z.land_spec, !Z.lor_spec.
  all: repeat match goal with
       | |- context [Z.testbit ?m ?k] => destruct (Z.testbit m k)
       end; reflexivity.
Qed.

(** X16. The VFO mask advertised in the capability table and [id5100_set_vfo]
    agree: with the four VFO constants single flags, a request that resolves
    to a single-flag VFO outside [ID5100_VFO_ALL] goes out as a plain select
    of [S_MAIN] with the private data untouched, and one inside the mask
    sets [x25cmdfails] to 1. *)
Theorem vfo_mask_matches_set_vfo (vfo : vfo_t) (rig : RIG) :
  forallb single_flag [RIG_VFO_A; RIG_VFO_B; RIG_VFO_MAIN; RIG_VFO_SUB]
    = true ->
  single_flag (resolved vfo rig) = true ->
  (Z.land (resolved vfo rig) ID5100_VFO_ALL = 0 ->
   id5100_set_vfo vfo rig = select_frame S_MAIN rig) /\
  (Z.land (resolved vfo rig) ID5100_VFO_ALL <> 0 ->
   x25cmdfails (priv (state (snd (id5100_set_vfo vfo rig)))) = 1).
Proof.
  intros F Hv. cbn [forallb] in F.
  rewrite !andb_true_iff in F. destruct F as (F1 & F2 & F3 & F4 & _).
  assert (M : Z.land (resolved vfo rig) ID5100_VFO_ALL = 0 <->
              resolved vfo rig <> RIG_VFO_A /\ resolved vfo rig <> RIG_VFO_B /\
              resolved vfo rig <> RIG_VFO_MAIN /\
              resolved vfo rig <> RIG_VFO_SUB).
  { unfold ID5100_VFO_ALL.
    rewrite !Z.land_lor_distr_r, !Z.lor_eq_0_iff.
    rewrite !land_single_flag_zero by assumption. tauto. }
  split.
  - intros Z0. apply M in Z0. destruct Z0 as (NA & NB & NM & NS).
    apply Z.eqb_neq in NA, NB, NM, NS.
    rewrite id5100_set_vfo_eq. cbv zeta.
    rewrite NA, NB, NM, NS. reflexivity.
  - intros NZ. rewrite set_vfo_x25cmdfails.
    destruct (Z.eqb_spec (resolved vfo rig) RIG_VFO_A); [reflexivity|].
    destruct (Z.eqb_spec (resolved vfo rig) RIG_VFO_B); [reflexivity|].
    destruct (Z.eqb_spec (resolved vfo rig) RIG_VFO_MAIN); [reflexivity|].
    destruct (Z.eqb_spec (resolved vfo rig) RIG_VFO_SUB); [reflexivity|].
    exfalso. apply NZ. apply M. tauto.
Qed.

End BackendProofs.

(** ** The statements at concrete inputs

    Hamlib 4.x header values, the replaying link, and the handles above. *)

#[local] Existing Instance hamlib4.
#[local] Existing Instance icom4.
#[local] Existing Instance scripted.

Ltac differ := let H := fresh in intro H; vm_compute in H; discriminate H.

Lemma hamlib4_vfos_distinct :
  all_distinct [RIG_VFO_A; RIG_VFO_B; RIG_VFO_MAIN; RIG_VFO_SUB] = true.
Proof. reflexivity. Defined.

Lemma hamlib4_modes_distinct :
  all_distinct [RIG_MODE_AM; RIG_MODE_AMN; RIG_MODE_FM; RIG_MODE_FMN;
                RIG_MODE_DSTAR] = true.
Proof. reflexivity. Defined.

(** Main requested with dual watch off: the switch-on request, then the
    select frame with selector [S_MAIN]; [dual_watch] ends at 1. *)
Example select_main_from_single_watch :
  id5100_set_vfo RIG_VFO_MAIN (bench RIG_VFO_A 0 0 [] []) =
  (RIG_OK,
   @Build_RIG scripted
     {| current_vfo := RIG_VFO_A;
        priv := {| dual_watch := 1; x25cmdfails := 1 |} |}
     {| func_replies := []; frame_replies := [] |}
     [SetFunc RIG_VFO_CURR RIG_FUNC_DUAL_WATCH 1;
      Transaction C_SET_VFO S_MAIN []]).
Proof. reflexivity. Qed.

(** A requested with dual watch on and the switch-off request timing out:
    the time-out is returned, [dual_watch] stays at 1, no select frame. *)
Example select_a_toggle_times_out :
  id5100_set_vfo RIG_VFO_A rig_dual_timeout =
  (- RIG_ETIMEOUT,
   @Build_RIG scripted
     {| current_vfo := RIG_VFO_A;
        priv := {| dual_watch := 1; x25cmdfails := 1 |} |}
     {| func_replies := []; frame_replies := [] |}
     [SetFunc RIG_VFO_CURR RIG_FUNC_DUAL_WATCH 0]).
Proof. reflexivity. Qed.

(** Split with transmit on Main, [rig_set_vfo] dispatching to
    [id5100_set_vfo]: Sub is selected. *)
Example split_tx_main_selects_sub :
  id5100_set_split_vfo id5100_set_vfo RIG_VFO_SUB 1 RIG_VFO_MAIN rig_dual =
  id5100_set_vfo RIG_VFO_SUB rig_dual /\
  issued (snd (id5100_set_split_vfo id5100_set_vfo RIG_VFO_SUB 1 RIG_VFO_MAIN
                 rig_dual)) = [Transaction C_SET_VFO S_SUB []].
Proof. split; reflexivity. Qed.

(** Split with transmit on Sub is refused without a call. *)
Example split_tx_sub_refused :
  id5100_set_split_vfo id5100_set_vfo RIG_VFO_MAIN 1 RIG_VFO_SUB rig_dual =
  (- RIG_EINVAL, rig_dual).
Proof. reflexivity. Qed.

(** A mode code outside 2, 5 and 0x17 (here 3): [RIG_OK], cells untouched. *)
Example get_mode_unknown_code :
  fst (id5100_get_mode RIG_VFO_A 7 8 (bench RIG_VFO_A 0 0 [] [(0, [4; 3; 1])])) =
  (RIG_OK, (7, 8)).
Proof. reflexivity. Qed.

(** VFO A requested with dual watch on. *)
Lemma set_vfo_dual_watch_requests_witness :
  all_distinct [RIG_VFO_A; RIG_VFO_B; RIG_VFO_MAIN; RIG_VFO_SUB] = true /\
  (issued (snd (id5100_set_vfo RIG_VFO_A rig_dual)) =
     issued rig_dual ++ [SetFunc RIG_VFO_CURR RIG_FUNC_DUAL_WATCH 0] \/
   exists myvfo,
     issued (snd (id5100_set_vfo RIG_VFO_A rig_dual)) =
     issued rig_dual ++ [SetFunc RIG_VFO_CURR RIG_FUNC_DUAL_WATCH 0;
                         Transaction C_SET_VFO myvfo []]).
Proof.
  split; [reflexivity|].
  apply (proj1 (set_vfo_dual_watch_requests RIG_VFO_A rig_dual
                  hamlib4_vfos_distinct)).
  - left; reflexivity.
  - differ.
Defined.

(** VFO A requested with dual watch on, the switch-off request timing out. *)
Lemma set_vfo_toggle_failure_witness :
  all_distinct [RIG_VFO_A; RIG_VFO_B; RIG_VFO_MAIN; RIG_VFO_SUB] = true /\
  fst (id5100_set_vfo RIG_VFO_A rig_dual_timeout) = - RIG_ETIMEOUT /\
  issued (snd (id5100_set_vfo RIG_VFO_A rig_dual_timeout)) =
    issued rig_dual_timeout ++ [SetFunc RIG_VFO_CURR RIG_FUNC_DUAL_WATCH 0] /\
  dual_watch (priv (state (snd (id5100_set_vfo RIG_VFO_A rig_dual_timeout)))) =
    dual_watch (priv (state rig_dual_timeout)).
Proof.
  split; [reflexivity|].
  apply (set_vfo_toggle_failure RIG_VFO_A rig_dual_timeout 0
           {| func_replies := []; frame_replies := [] |} (- RIG_ETIMEOUT)).
  - exact hamlib4_vfos_distinct.
  - left. split; [left; reflexivity|]. split; [differ | reflexivity].
  - reflexivity.
  - differ.
Defined.

(** Main requested with dual watch on: no dual-watch request is needed. *)
Lemma set_vfo_select_frame_witness :
  all_distinct [RIG_VFO_A; RIG_VFO_B; RIG_VFO_MAIN; RIG_VFO_SUB] = true /\
  toggle_accepted RIG_VFO_MAIN rig_dual /\
  ends_in_select RIG_VFO_MAIN rig_dual S_MAIN.
Proof.
  assert (A : toggle_accepted RIG_VFO_MAIN rig_dual).
  { split; intros; reflexivity. }
  split; [reflexivity|]. split; [exact A|].
  apply (proj1 (set_vfo_select_frame RIG_VFO_MAIN rig_dual
                  hamlib4_vfos_distinct A)).
  right; reflexivity.
Defined.

(** C7 as stated fails: VFO A requested with dual watch on and the
    switch-off request timing out.  The call returns the time-out status,
    the log holds the dual-watch request and no select frame, so the last
    call is not a select frame with selector [S_MAIN]. *)
Lemma set_vfo_select_frame_not_always :
  resolved RIG_VFO_A rig_dual_timeout = RIG_VFO_A /\
  fst (id5100_set_vfo RIG_VFO_A rig_dual_timeout) = - RIG_ETIMEOUT /\
  issued (snd (id5100_set_vfo RIG_VFO_A rig_dual_timeout)) =
    [SetFunc RIG_VFO_CURR RIG_FUNC_DUAL_WATCH 0] /\
  ~ ends_in_select RIG_VFO_A rig_dual_timeout S_MAIN.
Proof.
  split; [reflexivity|]. split; [reflexivity|]. split; [reflexivity|].
  intros (mid & toggles & E & _).
  apply (f_equal (fun x => issued (snd x))) in E.
  rewrite select_frame_issued in E.
  change (issued (snd (id5100_set_vfo RIG_VFO_A rig_dual_timeout)))
    with [SetFunc RIG_VFO_CURR RIG_FUNC_DUAL_WATCH 0] in E.
  destruct (issued mid) as [|c [|c' tl]]; discriminate E.
Qed.

(** A memory VFO requested. *)
Lemma set_vfo_outside_groups_witness :
  resolved RIG_VFO_MEM rig_flagged <> RIG_VFO_A /\
  resolved RIG_VFO_MEM rig_flagged <> RIG_VFO_B /\
  resolved RIG_VFO_MEM rig_flagged <> RIG_VFO_MAIN /\
  resolved RIG_VFO_MEM rig_flagged <> RIG_VFO_SUB /\
  issued (snd (id5100_set_vfo RIG_VFO_MEM rig_flagged)) =
    issued rig_flagged ++ [Transaction C_SET_VFO S_MAIN []].
Proof.
  assert (NA : resolved RIG_VFO_MEM rig_flagged <> RIG_VFO_A) by differ.
  assert (NB : resolved RIG_VFO_MEM rig_flagged <> RIG_VFO_B) by differ.
  assert (NM : resolved RIG_VFO_MEM rig_flagged <> RIG_VFO_MAIN) by differ.
  assert (NS : resolved RIG_VFO_MEM rig_flagged <> RIG_VFO_SUB) by differ.
  repeat (split; [assumption|]).
  apply (set_vfo_outside_groups RIG_VFO_MEM rig_flagged NA NB NM NS).
Defined.

(** FM narrow sent and read back; the radio reports (5, 2). *)
Lemma mode_round_trip_witness :
  all_distinct [RIG_MODE_AM; RIG_MODE_AMN; RIG_MODE_FM; RIG_MODE_FMN;
                RIG_MODE_DSTAR] = true /\
  (exists icmode modebuf,
     set_mode_switch RIG_MODE_FMN = Some (icmode, modebuf) /\
     (forall vfo width rig,
        issued (snd (id5100_set_mode vfo RIG_MODE_FMN width rig)) =
        issued rig ++ [Transaction C_SET_MODE icmode [modebuf]]) /\
     (forall vfo mode0 width0 rig p c0 rest,
        transact (rigport rig) C_RD_MODE (-1) [] =
          (p, (RIG_OK, c0 :: icmode :: modebuf :: rest)) ->
        fst (id5100_get_mode vfo mode0 width0 rig) =
        (RIG_OK, (RIG_MODE_FMN, 5000)))) /\
  fst (id5100_get_mode RIG_VFO_A 0 0 rig_reports_5_2) =
  (RIG_OK, (RIG_MODE_FMN, 5000)).
Proof.
  split; [reflexivity|]. split.
  - apply (proj1 (mode_round_trip hamlib4_modes_distinct) RIG_MODE_FMN 5000).
    cbn [In]. right; right; right; left. reflexivity.
  - apply (proj2 (mode_round_trip hamlib4_modes_distinct) RIG_VFO_A 0 0
             rig_reports_5_2 {| func_replies := []; frame_replies := [] |}
             4 []).
    reflexivity.
Defined.

(** The radio reports (2, 3). *)
Lemma get_mode_other_subcode_witness :
  (2 = 2 \/ 2 = 5) /\ 3 <> 1 /\
  fst (id5100_get_mode RIG_VFO_A 0 0 rig_reports_2_3) =
  (RIG_OK, (RIG_MODE_AMN, 6000)).
Proof.
  split; [left; reflexivity|]. split; [differ|].
  apply (get_mode_other_subcode RIG_VFO_A 0 0 rig_reports_2_3
           {| func_replies := []; frame_replies := [] |} 4 2 3 []).
  - left; reflexivity.
  - differ.
  - reflexivity.
Defined.

(** C4 as stated fails: the pair (2, 3) is in no row of the table, yet
    [id5100_get_mode] does not report a failure; it returns [RIG_OK] with AM
    narrow and 6000 Hz. *)
Lemma get_mode_accepts_unlisted_pair :
  ~ In (2, 3) [(2, 1); (2, 2); (5, 1); (5, 2)] /\ 2 <> 0x17 /\
  ~ get_mode_rejects RIG_VFO_A 0 0 rig_reports_2_3 /\
  fst (id5100_get_mode RIG_VFO_A 0 0 rig_reports_2_3) =
  (RIG_OK, (RIG_MODE_AMN, 6000)).
Proof.
  split.
  { cbn [In]. intros [H | [H | [H | [H | []]]]]; discriminate H. }
  split; [differ|]. split; [|reflexivity].
  intros H. apply H. reflexivity.
Qed.

(** CW requested. *)
Lemma set_mode_supported_or_invalid_witness :
  all_distinct [RIG_MODE_AM; RIG_MODE_AMN; RIG_MODE_FM; RIG_MODE_FMN;
                RIG_MODE_DSTAR] = true /\
  id5100_set_mode RIG_VFO_A RIG_MODE_CW 0 rig_dual = (- RIG_EINVAL, rig_dual).
Proof.
  split; [reflexivity|].
  apply (proj1 (set_mode_supported_or_invalid RIG_VFO_A RIG_MODE_CW 0
                  rig_dual hamlib4_modes_distinct)); differ.
Defined.

(** A run of all four operations with [rig_set_vfo] dispatching to
    [id5100_set_vfo], from a handle whose flag is set. *)
Lemma x25cmdfails_monotone_witness :
  x25cmdfails (priv (state rig_flagged)) <> 0 /\
  x25cmdfails
    (priv (state (exec_all id5100_set_vfo
                    [SetVfo RIG_VFO_MEM; SetMode RIG_VFO_A RIG_MODE_FM 0;
                     GetMode RIG_VFO_A 0 0;
                     SetSplitVfo RIG_VFO_SUB 1 RIG_VFO_MAIN;
                     SetSplitVfo RIG_VFO_SUB 1 RIG_VFO_B; SetVfo RIG_VFO_A]
                    rig_flagged))) <> 0.
Proof.
  assert (Hx : x25cmdfails (priv (state rig_flagged)) <> 0) by differ.
  split; [exact Hx|].
  apply (proj2 (x25cmdfails_monotone id5100_set_vfo
                  (fun v r => set_vfo_keeps_x25cmdfails v r))).
  exact Hx.
Defined.

(** ** Further statements at concrete inputs *)


Lemma set_vfo_ok_dual_watch_matches_group_witness :
  all_distinct [RIG_VFO_A; RIG_VFO_B; RIG_VFO_MAIN; RIG_VFO_SUB] = true /\
  fst (id5100_set_vfo RIG_VFO_A rig_dual) = RIG_OK /\
  dual_watch (priv (state (snd (id5100_set_vfo RIG_VFO_A rig_dual)))) = 0.
Proof.
  assert (Hok : fst (id5100_set_vfo RIG_VFO_A rig_dual) = RIG_OK)
    by reflexivity.
  split; [reflexivity|]. split; [exact Hok|].
  apply (proj1 (set_vfo_ok_dual_watch_matches_group RIG_VFO_A rig_dual
                  hamlib4_vfos_distinct Hok)).
  left; reflexivity.
Defined.

(** A requested with dual watch on; the switch-off request is acknowledged,
    the select frame times out. *)
Lemma set_vfo_two_step_result_witness :
  all_distinct [RIG_VFO_A; RIG_VFO_B; RIG_VFO_MAIN; RIG_VFO_SUB] = true /\
  id5100_set_vfo RIG_VFO_A rig_frame_timeout =
  (- RIG_ETIMEOUT,
   @Build_RIG scripted
     {| current_vfo := RIG_VFO_A;
        priv := {| dual_watch := 0; x25cmdfails := 1 |} |}
     {| func_replies := []; frame_replies := [] |}
     [SetFunc RIG_VFO_CURR RIG_FUNC_DUAL_WATCH 0;
      Transaction C_SET_VFO S_MAIN []]).
Proof.
  split; [reflexivity|].
  pose proof (set_vfo_two_step_result RIG_VFO_A rig_frame_timeout 0
                {| func_replies := [];
                   frame_replies := [(- RIG_ETIMEOUT, [])] |}
                {| func_replies := []; frame_replies := [] |}
                (- RIG_ETIMEOUT) [] hamlib4_vfos_distinct) as W.
  apply W.
  - left. split; [left; reflexivity|]. split; [differ | reflexivity].
  - reflexivity.
  - reflexivity.
Defined.

(** A, then B. *)
Lemma set_vfo_same_group_again_witness :
  all_distinct [RIG_VFO_A; RIG_VFO_B; RIG_VFO_MAIN; RIG_VFO_SUB] = true /\
  fst (id5100_set_vfo RIG_VFO_A rig_dual) = RIG_OK /\
  issued (snd (id5100_set_vfo RIG_VFO_B
                 (snd (id5100_set_vfo RIG_VFO_A rig_dual)))) =
  issued (snd (id5100_set_vfo RIG_VFO_A rig_dual)) ++
  [Transaction C_SET_VFO (selector (resolved RIG_VFO_B rig_dual)) []].
Proof.
  assert (Hok : fst (id5100_set_vfo RIG_VFO_A rig_dual) = RIG_OK)
    by reflexivity.
  split; [reflexivity|]. split; [exact Hok|].
  apply (set_vfo_same_group_again RIG_VFO_A RIG_VFO_B rig_dual
           hamlib4_vfos_distinct Hok).
  left. split; [left | right]; reflexivity.
Defined.

(** The read frame times out. *)
Lemma get_mode_frame_and_status_witness :
  fst (fst (id5100_get_mode RIG_VFO_A 7 8 rig_frame_timeout)) =
    - RIG_ETIMEOUT /\
  (- RIG_ETIMEOUT <> RIG_OK ->
   snd (fst (id5100_get_mode RIG_VFO_A 7 8 rig_frame_timeout)) = (7, 8)) /\
  snd (id5100_get_mode RIG_VFO_A 7 8 rig_frame_timeout) =
    @Build_RIG scripted (state rig_frame_timeout)
      {| func_replies := []; frame_replies := [] |}
      (issued rig_frame_timeout ++ [Transaction C_RD_MODE (-1) []]).
Proof.
  apply (get_mode_frame_and_status RIG_VFO_A 7 8 rig_frame_timeout
           {| func_replies := []; frame_replies := [] |} (- RIG_ETIMEOUT) []).
  reflexivity.
Defined.

(** Two FM calls on different handles. *)
Lemma set_mode_frame_identifies_mode_witness :
  issued (snd (id5100_set_mode RIG_VFO_A RIG_MODE_FM 0 rig_dual)) =
    issued rig_dual ++ [Transaction C_SET_MODE 5 [1]] /\
  RIG_MODE_FM = RIG_MODE_FM.
Proof.
  split; [reflexivity|].
  apply (set_mode_frame_identifies_mode RIG_VFO_A RIG_VFO_B RIG_MODE_FM
           RIG_MODE_FM 0 12000 rig_dual rig_flagged
           (Transaction C_SET_MODE 5 [1])); reflexivity.
Defined.

(** The radio reports (2, 3); the mode read is sent back as (2, 2). *)
Lemma get_mode_then_set_mode_witness :
  all_distinct [RIG_MODE_AM; RIG_MODE_AMN; RIG_MODE_FM; RIG_MODE_FMN;
                RIG_MODE_DSTAR] = true /\
  issued (snd (id5100_set_mode RIG_VFO_A
                 (fst (snd (fst (id5100_get_mode RIG_VFO_A 0 0
                                   rig_reports_2_3))))
                 0 rig_dual)) =
  issued rig_dual ++ [Transaction C_SET_MODE 2 [2]].
Proof.
  split; [reflexivity|].
  apply (get_mode_then_set_mode RIG_VFO_A 0 0 rig_reports_2_3
           {| func_replies := []; frame_replies := [] |} 4 2 3 []
           RIG_VFO_A 0 rig_dual hamlib4_modes_distinct).
  - left; reflexivity.
  - reflexivity.
Defined.

(** CW is a single flag outside the mask. *)
Lemma modes_mask_matches_set_mode_witness :
  forallb single_flag [RIG_MODE_AM; RIG_MODE_AMN; RIG_MODE_FM; RIG_MODE_FMN;
                       RIG_MODE_DSTAR] = true /\
  single_flag RIG_MODE_CW = true /\
  Z.land RIG_MODE_CW ID5100_MODES = 0 /\
  id5100_set_mode RIG_VFO_A RIG_MODE_CW 0 rig_dual = (- RIG_EINVAL, rig_dual).
Proof.
  assert (F : forallb single_flag
                [RIG_MODE_AM; RIG_MODE_AMN; RIG_MODE_FM; RIG_MODE_FMN;
                 RIG_MODE_DSTAR] = true) by reflexivity.
  assert (Hm : single_flag RIG_MODE_CW = true) by reflexivity.
  assert (Z0 : Z.land RIG_MODE_CW ID5100_MODES = 0) by reflexivity.
  split; [exact F|]. split; [exact Hm|]. split; [exact Z0|].
  apply (proj1 (proj1 (modes_mask_matches_set_mode RIG_VFO_A RIG_MODE_CW 0
                         rig_dual F Hm))).
  exact Z0.
Defined.

Lemma get_mode_reports_advertised_mode_witness :
  Z.land (fst (snd (fst (id5100_get_mode RIG_VFO_A 0 0 rig_reports_5_2))))
    ID5100_MODES =
  fst (snd (fst (id5100_get_mode RIG_VFO_A 0 0 rig_reports_5_2))).
Proof.
  apply (get_mode_reports_advertised_mode RIG_VFO_A 0 0 rig_reports_5_2
           {| func_replies := []; frame_replies := [] |} 4 5 2 []).
  - right; left; reflexivity.
  - reflexivity.
Defined.

(** The memory VFO is a single flag outside the mask. *)
Lemma vfo_mask_matches_set_vfo_witness :
  forallb single_flag [RIG_VFO_A; RIG_VFO_B; RIG_VFO_MAIN; RIG_VFO_SUB]
    = true /\
  single_flag (resolved RIG_VFO_MEM rig_flagged) = true /\
  Z.land (resolved RIG_VFO_MEM rig_flagged) ID5100_VFO_ALL = 0 /\
  id5100_set_vfo RIG_VFO_MEM rig_flagged = select_frame S_MAIN rig_flagged.
Proof.
  assert (F : forallb single_flag
                [RIG_VFO_A; RIG_VFO_B; RIG_VFO_MAIN; RIG_VFO_SUB] = true)
    by reflexivity.
  assert (Hv : single_flag (resolved RIG_VFO_MEM rig_flagged) = true)
    by reflexivity.
  assert (Z0 : Z.land (resolved RIG_VFO_MEM rig_flagged) ID5100_VFO_ALL = 0)
    by reflexivity.
  split; [exact F|]. split; [exact Hv|]. split; [exact Z0|].
  apply (proj1 (vfo_mask_matches_set_vfo RIG_VFO_MEM rig_flagged F Hv)).
  exact Z0.
Defined.

(** A, then Main. *)
Lemma set_vfo_group_change_toggles_witness :
  all_distinct [RIG_VFO_A; RIG_VFO_B; RIG_VFO_MAIN; RIG_VFO_SUB] = true /\
  fst (id5100_set_vfo RIG_VFO_A rig_dual) = RIG_OK /\
  exists rest,
    issued (snd (id5100_set_vfo RIG_VFO_MAIN
                   (snd (id5100_set_vfo RIG_VFO_A rig_dual)))) =
    issued (snd (id5100_set_vfo RIG_VFO_A rig_dual)) ++
    SetFunc RIG_VFO_CURR RIG_FUNC_DUAL_WATCH 1 :: rest.
Proof.
  assert (Hok : fst (id5100_set_vfo RIG_VFO_A rig_dual) = RIG_OK)
    by reflexivity.
  split; [reflexivity|]. split; [exact Hok|].
  apply (set_vfo_group_change_toggles RIG_VFO_A RIG_VFO_MAIN rig_dual 1
           hamlib4_vfos_distinct Hok).
  left. split; [left; reflexivity|]. split; [left|]; reflexivity.
Defined.

(** A requested twice, the first switch-off request timing out. *)
Lemma set_vfo_retry_after_refusal_witness :
  all_distinct [RIG_VFO_A; RIG_VFO_B; RIG_VFO_MAIN; RIG_VFO_SUB] = true /\
  fst (toggle 0 rig_dual_timeout) <> RIG_OK /\
  exists rest,
    issued (snd (id5100_set_vfo RIG_VFO_A
                   (snd (id5100_set_vfo RIG_VFO_A rig_dual_timeout)))) =
    issued (snd (id5100_set_vfo RIG_VFO_A rig_dual_timeout)) ++
    SetFunc RIG_VFO_CURR RIG_FUNC_DUAL_WATCH 0 :: rest.
Proof.
  assert (Hno : fst (toggle 0 rig_dual_timeout) <> RIG_OK) by differ.
  split; [reflexivity|]. split; [exact Hno|].
  apply (set_vfo_retry_after_refusal RIG_VFO_A rig_dual_timeout 0
           hamlib4_vfos_distinct); [|exact Hno].
  left. split; [left; reflexivity|]. split; [differ | reflexivity].
Defined.
